(** * BananaDB Collector: the capture-and-confirm flow of the browser extension

    A shallow embedding of the two scripts of the extension:

    - [Content] is [extension/content.js], the Dialog Presenter.  The page is
      a record holding what the script can observe or change: the overlays
      attached to [document.body], the [keydown] listeners registered on
      [document], and the messages handed to [chrome.runtime.sendMessage].
    - [Background] is the background script, the Capture Coordinator.  Its
      two handlers are programs in a small monad that records the calls made
      to the browser ([chrome.notifications.create], [fetch], ...) and
      carries JavaScript exceptions, so that [try]/[catch] reads as in the
      source.

    What the browser or the server decides (whether the injection is
    rejected, what [fetch] settles to, what the response body parses to) is
    an argument of the handler.

    The page is driven by events: the script being injected, a message from
    the background script, and what the user does (a click on an element of
    the dialog, an edit of the textarea, a key pressed).  User events reach
    elements that are in the document.  The host page is taken to carry none
    of the ids the dialog uses. *)

From Stdlib Require Import String Ascii ZArith NArith List Bool Arith Lia.
From Stdlib Require Import DecimalString DecimalZ.
Import ListNotations.
Open Scope string_scope.

(** ** JavaScript strings seen as UTF-16 code units

    [String.prototype.trim] looks at code units, so the content of the
    textarea is kept as the list of its code units. *)
Module JsString.

Definition t := list N.

(** WhiteSpace and LineTerminator of ECMAScript: TAB, LF, VT, FF, CR, SP,
    NBSP, U+1680, U+2000..U+200A, U+2028, U+2029, U+202F, U+205F, U+3000
    and U+FEFF.  All of them are single code units. *)
Definition isWhiteSpace (c : N) : bool :=
  ((9 <=? c) && (c <=? 13)
   || (c =? 32) || (c =? 160) || (c =? 5760)
   || (8192 <=? c) && (c <=? 8202)
   || (c =? 8232) || (c =? 8233) || (c =? 8239) || (c =? 8287)
   || (c =? 12288) || (c =? 65279))%N.

Fixpoint trimStart (s : t) : t :=
  match s with
  | c :: rest => if isWhiteSpace c then trimStart rest else s
  | [] => []
  end.

Definition trimEnd (s : t) : t := rev (trimStart (rev s)).

(** [s.trim()] *)
Definition trim (s : t) : t := trimEnd (trimStart s).

(** The code units of a text written in ASCII. *)
Fixpoint ofAscii (s : string) : t :=
  match s with
  | EmptyString => []
  | String a rest => N_of_ascii a :: ofAscii rest
  end.

End JsString.

(** ** extension/content.js *)
Module Content.

(** The message the background script sends to the tab. *)
Record Request := {
  action : string;
  imageUrl : string;
  pageUrl : string
}.

(** The object passed to [chrome.runtime.sendMessage] by the Save button. *)
Record SaveMessage := {
  saveAction : string;
  saveImageUrl : string;
  savePageUrl : string;
  promptText : JsString.t;
  skipAI : bool
}.

(** One overlay element ([div#bananadb-dialog]) with the subtree that
    [innerHTML] builds under it.  [node] is the identity of the element
    object; [capturedImageUrl] and [capturedPageUrl] are the arguments of
    the call that built it, which its listeners close over; [value] is
    [textarea.value] and [checked] the state of the checkbox.  Styles and
    focus play no part in what follows and are left out. *)
Record Overlay := {
  node : nat;
  capturedImageUrl : string;
  capturedPageUrl : string;
  value : JsString.t;
  checked : bool
}.

(** The elements of a dialog that can be the target of a click.  [Box]
    stands for the inner [div] and its inert descendants (heading,
    paragraph, first label); [SkipLabel] for the [label] and [span] that
    wrap the checkbox. *)
Inductive Target :=
| OverlayItself
| Box
| Textarea
| SkipLabel
| Checkbox
| CancelBtn
| SaveBtn.

Definition Target_eqb (a b : Target) : bool :=
  match a, b with
  | OverlayItself, OverlayItself | Box, Box | Textarea, Textarea
  | SkipLabel, SkipLabel | Checkbox, Checkbox
  | CancelBtn, CancelBtn | SaveBtn, SaveBtn => true
  | _, _ => false
  end.

(** The page as the content script sees it.
    - [listeners]: functions registered with
      [chrome.runtime.onMessage.addListener], one for each time the
      script ran in the page;
    - [body]: the overlays attached to [document.body], in document
      order (the host page is taken to use none of the [bananadb-] ids);
    - [keydown]: the [escHandler] closures registered on [document], in
      registration order, each named by the overlay it closes over;
    - [outbox]: the calls of [chrome.runtime.sendMessage], oldest first,
      each with the overlay whose Save listener made it;
    - [created]: how many overlays were created, the next fresh [node]. *)
Record Page := {
  listeners : nat;
  body : list Overlay;
  keydown : list nat;
  outbox : list (nat * SaveMessage);
  created : nat
}.

Definition initial : Page :=
  {| listeners := 0; body := []; keydown := []; outbox := []; created := 0 |}.

Definition setBody (b : list Overlay) (p : Page) : Page :=
  {| listeners := listeners p; body := b; keydown := keydown p;
     outbox := outbox p; created := created p |}.

(** A reference to an element of the document: the overlay it belongs to
    and which element of the dialog it is. *)
Definition Element := (Overlay * Target)%type.

(** [document.getElementById(id)]: the first element in document order
    that carries the id. *)
Definition getElementById (id : string) (p : Page) : option Element :=
  let part :=
    if id =? "bananadb-dialog" then Some OverlayItself
    else if id =? "bananadb-prompt-input" then Some Textarea
    else if id =? "bananadb-skip-ai-checkbox" then Some Checkbox
    else if id =? "bananadb-cancel-btn" then Some CancelBtn
    else if id =? "bananadb-save-btn" then Some SaveBtn
    else None in
  match part, body p with
  | Some t, o :: _ => Some (o, t)
  | _, _ => None
  end.

(** [overlay.remove()]: detaches the overlay from its parent; nothing
    happens when it is not attached. *)
Definition remove (overlay : nat) (p : Page) : Page :=
  setBody (filter (fun o => negb (Nat.eqb (node o) overlay)) (body p)) p.

(** [document.removeEventListener('keydown', escHandler)] *)
Definition removeKeydownListener (overlay : nat) (p : Page) : Page :=
  {| listeners := listeners p; body := body p;
     keydown := filter (fun h => negb (Nat.eqb h overlay)) (keydown p);
     outbox := outbox p; created := created p |}.

(** [chrome.runtime.sendMessage(message)], called from the Save listener
    of [overlay]. *)
Definition sendMessage (overlay : nat) (m : SaveMessage) (p : Page) : Page :=
  {| listeners := listeners p; body := body p; keydown := keydown p;
     outbox := outbox p ++ [(overlay, m)]; created := created p |}.

(** [showPromptInputDialog(imageUrl, pageUrl)].  Past the guard the page
    holds no dialog, so the elements the function then finds by id are those
    of the overlay it has just appended: an empty textarea, an unchecked
    box, and the two buttons, whose click listeners, with the overlay's
    own, are what [click] runs.  [escHandler] is added to the document. *)
Definition showPromptInputDialog (imageUrl pageUrl : string) (p : Page) : Page :=
  match getElementById "bananadb-dialog" p with
  | Some _ => p
  | None =>
      let overlay :=
        {| node := created p;
           capturedImageUrl := imageUrl; capturedPageUrl := pageUrl;
           value := []; checked := false |} in
      {| listeners := listeners p;
         body := body p ++ [overlay];
         keydown := keydown p ++ [node overlay];
         outbox := outbox p;
         created := S (created p) |}
  end.

(** The listener of the Cancel button. *)
Definition cancelListener (overlay : Overlay) (p : Page) : Page :=
  remove (node overlay) p.

(** The listener of the Save button.  [textarea] is the element found
    when the dialog was built, the one of [overlay]; the checkbox is
    looked up in the document at the time of the click, and a failed
    lookup ends the listener with a TypeError before anything is sent. *)
Definition saveListener (overlay : Overlay) (p : Page) : Page :=
  let promptText := JsString.trim (value overlay) in
  match getElementById "bananadb-skip-ai-checkbox" p with
  | None => p
  | Some (box, _) =>
      let skipAI := checked box in
      remove (node overlay)
        (sendMessage (node overlay)
           {| saveAction := "saveImage";
              saveImageUrl := capturedImageUrl overlay;
              savePageUrl := capturedPageUrl overlay;
              promptText := promptText;
              skipAI := skipAI |} p)
  end.

(** The click listener of the overlay: [e.target === overlay]. *)
Definition overlayListener (overlay : Overlay) (target : Target) (p : Page) : Page :=
  if Target_eqb target OverlayItself then remove (node overlay) p else p.

(** [escHandler], the keydown listener closing over [overlay]. *)
Definition escHandler (overlay : nat) (key : string) (p : Page) : Page :=
  if key =? "Escape"
  then removeKeydownListener overlay (remove overlay p)
  else p.

Definition findOverlay (n : nat) (p : Page) : option Overlay :=
  find (fun o => Nat.eqb (node o) n) (body p).

Definition updateOverlay (n : nat) (f : Overlay -> Overlay) (p : Page) : Page :=
  setBody (map (fun o => if Nat.eqb (node o) n then f o else o) (body p)) p.

Definition toggle (o : Overlay) : Overlay :=
  {| node := node o; capturedImageUrl := capturedImageUrl o;
     capturedPageUrl := capturedPageUrl o; value := value o;
     checked := negb (checked o) |}.

Definition setValue (v : JsString.t) (o : Overlay) : Overlay :=
  {| node := node o; capturedImageUrl := capturedImageUrl o;
     capturedPageUrl := capturedPageUrl o; value := v;
     checked := checked o |}.

(** A click of the user on element [target] of overlay [n].  A click only
    reaches elements of the document: when the overlay is not attached
    there is no such click.  The event runs the listeners of the target,
    then bubbles to the overlay, whose listener sees the original target;
    the path is fixed when the event starts, so the overlay's listener runs
    even when a button's listener detached the overlay.  The checkbox, and
    the label around it, flip the box. *)
Definition click (n : nat) (target : Target) (p : Page) : Page :=
  match findOverlay n p with
  | None => p
  | Some overlay =>
      let atTarget :=
        match target with
        | CancelBtn => cancelListener overlay p
        | SaveBtn => saveListener overlay p
        | Checkbox | SkipLabel => updateOverlay n toggle p
        | OverlayItself | Box | Textarea => p
        end in
      overlayListener overlay target atTarget
  end.

(** The user edits the textarea of overlay [n], leaving [v] in it. *)
Definition input (n : nat) (v : JsString.t) (p : Page) : Page :=
  updateOverlay n (setValue v) p.

(** A keydown event reaching [document]: the listeners registered when the
    event starts run in order, each one unless it was removed meanwhile. *)
Definition dispatchKeydown (key : string) (snapshot : list nat) (p : Page) : Page :=
  fold_left
    (fun q h => if existsb (Nat.eqb h) (keydown q) then escHandler h key q else q)
    snapshot p.

Definition keydownEvent (key : string) (p : Page) : Page :=
  dispatchKeydown key (keydown p) p.

(** The listener registered at the top of the script ([sendResponse] does
    not touch the page). *)
Definition onMessage (request : Request) (p : Page) : Page :=
  if action request =? "showPromptDialog"
  then showPromptInputDialog (imageUrl request) (pageUrl request) p
  else p.

(** Running the script in the page registers one more listener. *)
Definition inject (p : Page) : Page :=
  {| listeners := S (listeners p); body := body p; keydown := keydown p;
     outbox := outbox p; created := created p |}.

(** A message from the background script is given to every listener. *)
Definition receive (request : Request) (p : Page) : Page :=
  Nat.iter (listeners p) (onMessage request) p.

Inductive Event :=
| Inject
| Receive (request : Request)
| Click (n : nat) (target : Target)
| Input (n : nat) (v : JsString.t)
| KeyDown (key : string).

Definition step (p : Page) (e : Event) : Page :=
  match e with
  | Inject => inject p
  | Receive request => receive request p
  | Click n target => click n target p
  | Input n v => input n v p
  | KeyDown key => keydownEvent key p
  end.

Definition run (events : list Event) (p : Page) : Page :=
  fold_left step events p.

(** How many messages of the outbox were sent by overlay [n]. *)
Definition sentBy (n : nat) (p : Page) : nat :=
  length (filter (fun m => Nat.eqb (fst m) n) (outbox p)).

Definition attached (n : nat) (p : Page) : bool :=
  existsb (fun o => Nat.eqb (node o) n) (body p).

(** [n] rounds of opening the dialog and leaving it through [leave]. *)
Fixpoint rounds (leave : nat -> Page -> Page) (n : nat) (p : Page) : Page :=
  match n with
  | 0 => p
  | S k =>
      let opened := showPromptInputDialog "" "" (rounds leave k p) in
      leave (created opened - 1) opened
  end.

End Content.

(** ** The background script *)
Module Background.

(** A JavaScript [Error] object; the script reads nothing but [message]. *)
Record Error := { message : string }.

(** How a statement ends, or what a promise settles to: a value, or a
    thrown (rejected) error. *)
Inductive Completion (A : Type) :=
| Normal (a : A)
| Throw (e : Error).
Arguments Normal {A} a.
Arguments Throw {A} e.

(** The body given to [JSON.stringify] for the Collection Endpoint. *)
Record CollectBody := {
  image_url : string;
  page_url : string;
  context_text : JsString.t;
  skip_ai : bool
}.

(** The calls the script makes to the browser.  [NotificationsCreate]
    keeps the two fields that vary ([type], [iconUrl] and [priority] are
    constants of [showNotification]); the console calls keep their first
    argument. *)
Inductive Call :=
| ConsoleLog (label : string)
| ConsoleError (label : string)
| NotificationsCreate (title text : string)
| ExecuteScript (tabId : Z) (file : string)
| TabsSendMessage (tabId : Z) (request : Content.Request)
| Fetch (url method contentType : string) (body : CollectBody).

(** A handler: it extends the log of calls and ends normally or throws. *)
Definition JS (A : Type) := list Call -> Completion A * list Call.

Definition ret {A} (a : A) : JS A := fun log => (Normal a, log).

Definition throw {A} (e : Error) : JS A := fun log => (Throw e, log).

Definition bind {A B} (c : JS A) (k : A -> JS B) : JS B :=
  fun log =>
    match c log with
    | (Normal a, log') => k a log'
    | (Throw e, log') => (Throw e, log')
    end.

(** [try { c } catch (error) { handler }] *)
Definition tryCatch {A} (c : JS A) (handler : Error -> JS A) : JS A :=
  fun log =>
    match c log with
    | (Normal a, log') => (Normal a, log')
    | (Throw e, log') => handler e log'
    end.

Definition call (c : Call) : JS unit := fun log => (Normal tt, (log ++ [c])%list).

(** [await promise], the promise settling to [settled]; also an
    expression that ends as [settled]. *)
Definition await {A} (settled : Completion A) : JS A := fun log => (settled, log).

(** [promise.catch(f)] *)
Definition promiseCatch {A} (settled : Completion A) (f : Error -> A) : Completion A :=
  match settled with
  | Normal a => Normal a
  | Throw e => Normal (f e)
  end.

Declare Scope js_scope.
Delimit Scope js_scope with js.
Notation "x <- c ;; k" := (bind c (fun x => k))
  (at level 61, c at next level, right associativity) : js_scope.
Notation "c ;; k" := (bind c (fun _ => k))
  (at level 61, right associativity) : js_scope.
Local Open Scope js_scope.

Definition run {A} (c : JS A) : Completion A * list Call := c [].

(** *** JavaScript values, as far as [JSON.parse] produces them *)

(** A safe integer: an integer of magnitude at most 2^53 - 1.  Every one
    of them is a double, and JavaScript prints it in plain decimal. *)
Record SafeInteger := {
  asZ : Z;
  asZ_safe : (Z.abs asZ <=? 9007199254740991)%Z = true
}.

(** A number, which is a double: a safe integer; or minus zero; or any
    other double (a fraction, a magnitude from 2^53 on, an infinity), of
    which the script sees nothing but the text [Number::toString] gives
    it, such as [1.5] or [1e+21].  [JSON.parse] yields no NaN. *)
Inductive Number :=
| Integer (i : SafeInteger)
| NegativeZero
| Inexact (printed : string).

(** [Obj] lists the own properties of the object, which are data
    properties holding values of [JSON.parse]: none of them is callable. *)
#[local] Set Warnings "-register-all".
Inductive Value :=
| Undefined
| Null
| Bool (b : bool)
| Num (x : Number)
| Str (s : string)
| Arr (items : list Value)
| Obj (props : list (string * Value)).

Fixpoint lookup (key : string) (props : list (string * Value)) : option Value :=
  match props with
  | [] => None
  | (k, v) :: rest => if k =? key then Some v else lookup key rest
  end.

(** [v.key] for the keys the script reads ([data], [image_id], [detail]),
    none of which is a built-in property of strings, numbers, booleans or
    arrays.  The texts of the TypeErrors are those of V8. *)
Definition getProp (v : Value) (key : string) : JS Value :=
  match v with
  | Undefined =>
      throw {| message := "Cannot read properties of undefined (reading '" ++ key ++ "')" |}
  | Null =>
      throw {| message := "Cannot read properties of null (reading '" ++ key ++ "')" |}
  | Obj props =>
      ret match lookup key props with Some x => x | None => Undefined end
  | Bool _ | Num _ | Str _ | Arr _ => ret Undefined
  end.

(** ToBoolean *)
Definition truthy (v : Value) : bool :=
  match v with
  | Undefined | Null => false
  | Bool b => b
  | Num (Integer i) => negb (asZ i =? 0)%Z
  | Num NegativeZero => false
  | Num (Inexact _) => true
  | Str s => negb (s =? "")
  | Arr _ | Obj _ => true
  end.

(** [a || b] *)
Definition or (a b : Value) : Value := if truthy a then a else b.

(** [a || b] on strings *)
Definition orString (a b : string) : string := if a =? "" then b else a.

(** Number::toString *)
Definition numberToString (x : Number) : string :=
  match x with
  | Integer i => NilZero.string_of_int (Z.to_int (asZ i))
  | NegativeZero => "0"
  | Inexact printed => printed
  end.

(** The text of [response.status] in a template literal.  A status is an
    integer from 0 to 999. *)
Definition statusText (status : Z) : string :=
  NilZero.string_of_int (Z.to_int status).

(** ToString, as applied by template literals and by [new Error].
    - An object is converted through its [toString] and [valueOf].  Without
      an own member named [toString] it inherits the one of
      [Object.prototype], which answers [[object Object]].  An own member
      of that name is not callable and hides the inherited one; [valueOf],
      own or inherited, gives no primitive either, and the conversion
      throws a TypeError (the text is that of V8).
    - An array is converted by [Array.prototype.join]: the texts of its
      elements, empty for undefined and null, separated by commas; the
      conversion of an element may throw. *)
Fixpoint toString (v : Value) : Completion string :=
  match v with
  | Undefined => Normal "undefined"
  | Null => Normal "null"
  | Bool true => Normal "true"
  | Bool false => Normal "false"
  | Num x => Normal (numberToString x)
  | Str s => Normal s
  | Arr items =>
      match
        (fix texts (l : list Value) : Completion (list string) :=
           match l with
           | [] => Normal []
           | x :: rest =>
               match
                 match x with
                 | Undefined | Null => Normal ""
                 | _ => toString x
                 end
               with
               | Throw e => Throw e
               | Normal text =>
                   match texts rest with
                   | Throw e => Throw e
                   | Normal more => Normal (text :: more)
                   end
               end
           end) items
      with
      | Throw e => Throw e
      | Normal all => Normal (String.concat "," all)
      end
  | Obj props =>
      match lookup "toString" props with
      | Some _ => Throw {| message := "Cannot convert object to primitive value" |}
      | None => Normal "[object Object]"
      end
  end.

(** [new Error(v)]: the message is the text of [v], empty when [v] is
    undefined; the conversion may throw. *)
Definition newError (v : Value) : Completion Error :=
  match v with
  | Undefined => Normal {| message := "" |}
  | _ =>
      match toString v with
      | Normal text => Normal {| message := text |}
      | Throw e => Throw e
      end
  end.

(** *** What the browser hands to the handlers *)

Record OnClickData := {
  menuItemId : string;
  srcUrl : option string
}.

Record Tab := {
  id : Z;
  url : option string
}.

(** A [Response]: its status and what [response.json()] settles to. *)
Record Response := {
  status : Z;
  json : Completion Value
}.

(** [response.ok] *)
Definition ok (r : Response) : bool :=
  ((200 <=? status r) && (status r <=? 299))%Z.

Definition API_BASE_URL : string := "http://localhost:8000".

Definition showNotification (title text : string) : JS unit :=
  call (NotificationsCreate title text).

(** [!imageUrl] *)
Definition missing (s : option string) : bool :=
  match s with
  | None => true
  | Some s => s =? ""
  end.

(** [tab.url] and [tab.id], [tab] being absent when the click did not
    happen in a tab. *)
Definition tabUrl (tab : option Tab) : JS (option string) :=
  match tab with
  | None => throw {| message := "Cannot read properties of undefined (reading 'url')" |}
  | Some t => ret (url t)
  end.

Definition tabId (tab : option Tab) : JS Z :=
  match tab with
  | None => throw {| message := "Cannot read properties of undefined (reading 'id')" |}
  | Some t => ret (id t)
  end.

(** The listener of [chrome.contextMenus.onClicked].  [injected] is what
    the promise of [chrome.scripting.executeScript] settles to. *)
Definition onClicked (info : OnClickData) (tab : option Tab)
    (injected : Completion unit) : JS unit :=
  if menuItemId info =? "saveToBananaDB" then
    tryCatch
      (let imageUrl := srcUrl info in
       if missing imageUrl then
         showNotification "❌ 錯誤" "無法取得圖片 URL"
       else
         u <- tabUrl tab ;;
         let pageUrl := match u with Some s => orString s "" | None => "" end in
         call (ConsoleLog "📤 準備儲存圖片:") ;;
         tryCatch
           (i <- tabId tab ;;
            call (ExecuteScript i "content.js") ;;
            await injected)
           (fun e => call (ConsoleLog "Content script already injected or injection failed:")) ;;
         i <- tabId tab ;;
         call (TabsSendMessage i
                 {| Content.action := "showPromptDialog";
                    Content.imageUrl := match imageUrl with Some s => s | None => "" end;
                    Content.pageUrl := pageUrl |}))
      (fun error =>
         call (ConsoleError "❌ 處理失敗:") ;;
         showNotification "❌ 錯誤" (orString (message error) "處理失敗"))
  else ret tt.

(** [handleSaveImage].  [fetched] is what the promise of [fetch] settles
    to: a response, or the rejection of a request that failed on the
    network. *)
Definition handleSaveImage (imageUrl pageUrl : string) (promptText : JsString.t)
    (skipAI : bool) (fetched : Completion Response) : JS unit :=
  tryCatch
    (call (ConsoleLog "💾 開始儲存:") ;;
     call (Fetch (API_BASE_URL ++ "/api/collect_url") "POST" "application/json"
             {| image_url := imageUrl;
                page_url := pageUrl;
                context_text := promptText;
                skip_ai := skipAI || false |}) ;;
     response <- await fetched ;;
     (if negb (ok response) then
        errorData <- await (promiseCatch (json response) (fun _ => Obj [])) ;;
        detail <- getProp errorData "detail" ;;
        error <- await (newError (or detail (Str ("HTTP " ++ statusText (status response))))) ;;
        throw error
      else ret tt) ;;
     result <- await (json response) ;;
     data <- getProp result "data" ;;
     image_id <- getProp data "image_id" ;;
     text <- await (toString image_id) ;;
     showNotification "✅ 儲存成功"
       ("圖片已新增至 BananaDB (ID: " ++ text ++ ")") ;;
     call (ConsoleLog "✅ 儲存成功:"))
    (fun error =>
       call (ConsoleError "❌ 儲存失敗:") ;;
       showNotification "❌ 儲存失敗"
         (orString (message error)
            "請確認 BananaDB 伺服器正在執行 (http://localhost:8000)")).

(** The listener of [chrome.runtime.onMessage] that serves the content
    script ([sendResponse] answers a sender that passes no callback). *)
Definition onMessage (request : Content.SaveMessage)
    (fetched : Completion Response) : JS unit :=
  if Content.saveAction request =? "saveImage" then
    handleSaveImage (Content.saveImageUrl request) (Content.savePageUrl request)
      (Content.promptText request) (Content.skipAI request) fetched
  else ret tt.

(** The notifications among the calls of a log. *)
Fixpoint notifications (log : list Call) : list (string * string) :=
  match log with
  | [] => []
  | NotificationsCreate title text :: rest => (title, text) :: notifications rest
  | _ :: rest => notifications rest
  end.

Definition isSuccess (n : string * string) : bool := fst n =? "✅ 儲存成功".
Definition isFailure (n : string * string) : bool := fst n =? "❌ 儲存失敗".

(** Calls that reach outside the extension's own process: the injection,
    the message to the tab, the HTTP request. *)
Definition reachesOut (c : Call) : bool :=
  match c with
  | ExecuteScript _ _ | TabsSendMessage _ _ | Fetch _ _ _ _ => true
  | _ => false
  end.

End Background.

(** [needle] occurs in [text]. *)
Definition contains (needle text : string) : Prop :=
  exists before after, text = before ++ needle ++ after.

(** [text.includes(needle)], the test that decides [contains]. *)
Fixpoint includes (needle text : string) : bool :=
  if prefix needle text then true
  else match text with
       | EmptyString => false
       | String _ rest => includes needle rest
       end.

(** The value of [v.key] where reading it does not throw. *)
Definition member (key : string) (v : Background.Value) : Background.Value :=
  match v with
  | Background.Obj props =>
      match Background.lookup key props with
      | Some x => x
      | None => Background.Undefined
      end
  | _ => Background.Undefined
  end.

(** [result.data.image_id] can be read and put into the text of the
    notification: [result] is an object whose [data] is neither undefined
    nor null, and the conversion of [data.image_id] to a string does not
    throw. *)
Definition readsIdentifier (result : Background.Value) : bool :=
  match result with
  | Background.Obj props =>
      match Background.lookup "data" props with
      | None | Some Background.Undefined | Some Background.Null => false
      | Some data =>
          match Background.toString (member "image_id" data) with
          | Background.Normal _ => true
          | Background.Throw _ => false
          end
      end
  | _ => false
  end.

(** The request was answered with a 2xx status and a body that parses to
    a value from which the identifier can be read and printed. *)
Definition succeeds (fetched : Background.Completion Background.Response) : bool :=
  match fetched with
  | Background.Normal r =>
      Background.ok r
      && match Background.json r with
         | Background.Normal result => readsIdentifier result
         | Background.Throw _ => false
         end
  | Background.Throw _ => false
  end.

(** Runs [handleSaveImage] as far as its arguments allow. *)
Ltac evaluate :=
  unfold Background.run, Background.handleSaveImage, Background.tryCatch,
    Background.bind, Background.call, Background.await,
    Background.showNotification, Background.promiseCatch, Background.getProp,
    Background.throw, Background.ret, Background.or, Background.orString;
  simpl.

(** Splits the goal along every value the handler looks at. *)
Ltac split_cases :=
  repeat match goal with
         | |- context [match ?x with _ => _ end] => is_var x; destruct x; simpl
         | |- context [match Background.lookup ?k ?p with _ => _ end] =>
             destruct (Background.lookup k p); simpl
         | |- context [match Background.toString ?v with _ => _ end] =>
             destruct (Background.toString v); simpl
         | |- context [match Background.newError ?v with _ => _ end] =>
             destruct (Background.newError v); simpl
         end.

Open Scope list_scope.

(** A text that does not begin, or end, with white space. *)
Definition startsClean (s : JsString.t) : Prop :=
  match s with
  | c :: _ => JsString.isWhiteSpace c = false
  | [] => True
  end.

Definition endsClean (s : JsString.t) : Prop := startsClean (rev s).

Definition allWhiteSpace (s : JsString.t) : Prop :=
  forallb JsString.isWhiteSpace s = true.

(** What every page reached from [Content.initial] satisfies: at most one
    overlay is attached; the attached overlays, and the senders of the
    outbox, were created earlier; an overlay that sent its message is no
    longer attached; no overlay appears twice among the senders. *)
Definition wellFormed (p : Content.Page) : Prop :=
  length (Content.body p) <= 1
  /\ (forall o, In o (Content.body p) -> Content.node o < Content.created p)
  /\ (forall k, In k (map fst (Content.outbox p)) ->
        k < Content.created p /\ Content.attached k p = false)
  /\ NoDup (map fst (Content.outbox p)).

(** Every attached overlay still has its [escHandler] on the document. *)
Definition listened (p : Content.Page) : Prop :=
  incl (map Content.node (Content.body p)) (Content.keydown p).

(** An overlay that left the document without having sent anything. *)
Definition discarded (n : nat) (p : Content.Page) : Prop :=
  n < Content.created p
  /\ Content.attached n p = false
  /\ ~ In n (map fst (Content.outbox p)).

(** The identities of the attached overlays. *)
Definition nodes (p : Content.Page) : list nat := map Content.node (Content.body p).

(** [q] has the overlays of [p] or fewer, and sent nothing more. *)
Definition shrinks (p q : Content.Page) : Prop :=
  Content.created q = Content.created p
  /\ Content.outbox q = Content.outbox p
  /\ incl (nodes q) (nodes p)
  /\ length (Content.body q) <= length (Content.body p).

(** ** The install listener of the background script *)
Module Install.

(** The object given to [chrome.contextMenus.create]. *)
Record CreateProperties := {
  id : string;
  title : string;
  contexts : list string
}.

Inductive Call :=
| ContextMenusCreate (item : CreateProperties)
| ConsoleLog (label : string).

(** The listener of [chrome.runtime.onInstalled]. *)
Definition onInstalled : list Call :=
  [ContextMenusCreate
     {| id := "saveToBananaDB";
        title := "🍌 Save to BananaDB";
        contexts := ["image"%string] |};
   ConsoleLog "✅ BananaDB Collector 已安裝"].

(** The ids of the menu items a log of calls created. *)
Fixpoint itemIds (log : list Call) : list string :=
  match log with
  | [] => []
  | ContextMenusCreate item :: rest => id item :: itemIds rest
  | _ :: rest => itemIds rest
  end.

End Install.

(** The HTTP requests among the calls of a log. *)
Fixpoint fetches (log : list Background.Call)
    : list (string * string * string * Background.CollectBody) :=
  match log with
  | [] => []
  | Background.Fetch url method contentType body :: rest =>
      (url, method, contentType, body) :: fetches rest
  | _ :: rest => fetches rest
  end.

(** The messages to a tab among the calls of a log. *)
Fixpoint tabMessages (log : list Background.Call) : list (Z * Content.Request) :=
  match log with
  | [] => []
  | Background.TabsSendMessage tabId request :: rest =>
      (tabId, request) :: tabMessages rest
  | _ :: rest => tabMessages rest
  end.

(** The injections among the calls of a log. *)
Fixpoint injections (log : list Background.Call) : list (Z * string) :=
  match log with
  | [] => []
  | Background.ExecuteScript tabId file :: rest => (tabId, file) :: injections rest
  | _ :: rest => injections rest
  end.

(** The text shown when the script has nothing better to say. *)
Definition serverHint : string :=
  "請確認 BananaDB 伺服器正在執行 (http://localhost:8000)".

(** Events that are no way out of the dialog: injections, messages, edits,
    clicks on elements other than the overlay and the two buttons, and keys
    other than Escape. *)
Definition keepsDialog (e : Content.Event) : bool :=
  match e with
  | Content.Inject | Content.Receive _ | Content.Input _ _ => true
  | Content.Click _ target =>
      match target with
      | Content.OverlayItself | Content.CancelBtn | Content.SaveBtn => false
      | _ => true
      end
  | Content.KeyDown key => negb (key =? "Escape")
  end.

(** The same dialog up to what the user put in it. *)
Definition sameCapture (o o' : Content.Overlay) : Prop :=
  Content.node o' = Content.node o
  /\ Content.capturedImageUrl o' = Content.capturedImageUrl o
  /\ Content.capturedPageUrl o' = Content.capturedPageUrl o.

(** The keydown listeners are those of distinct overlays created earlier. *)
Definition keydownTidy (p : Content.Page) : Prop :=
  NoDup (Content.keydown p)
  /\ forall h, In h (Content.keydown p) -> h < Content.created p.

(** Every message of the outbox asks for a save. *)
Definition asksSave (p : Content.Page) : Prop :=
  forall m, In m (Content.outbox p) -> Content.saveAction (snd m) = "saveImage"%string.

(** * Properties *)

(** ** [trim] *)
Section Trim.
Import JsString.

Lemma trimStart_split (s : t) :
  exists l, s = l ++ trimStart s /\ allWhiteSpace l.
Proof.
  induction s as [|c s IH]; simpl.
  - exists []. split; reflexivity.
  - destruct (isWhiteSpace c) eqn:Hc.
    + destruct IH as [l [Hs Hl]]. exists (c :: l). split.
      * simpl. f_equal. exact Hs.
      * unfold allWhiteSpace. simpl. rewrite Hc. exact Hl.
    + exists []. split; reflexivity.
Qed.

Lemma trimStart_clean (s : t) : startsClean (trimStart s).
Proof.
  induction s as [|c s IH]; simpl; [exact I|].
  destruct (isWhiteSpace c) eqn:Hc; [exact IH | exact Hc].
Qed.

Lemma allWhiteSpace_rev (s : t) : allWhiteSpace s -> allWhiteSpace (rev s).
Proof.
  unfold allWhiteSpace. rewrite !forallb_forall.
  intros H c Hin. apply H. apply in_rev. exact Hin.
Qed.

Lemma trimEnd_split (s : t) :
  exists r, s = trimEnd s ++ r /\ allWhiteSpace r.
Proof.
  unfold trimEnd. destruct (trimStart_split (rev s)) as [l [Hs Hl]].
  exists (rev l). split.
  - rewrite <- rev_app_distr, <- Hs, rev_involutive. reflexivity.
  - apply allWhiteSpace_rev. exact Hl.
Qed.

Lemma trimEnd_clean (s : t) : endsClean (trimEnd s).
Proof.
  unfold endsClean, trimEnd. rewrite rev_involutive. apply trimStart_clean.
Qed.

(** Cutting the end of a text keeps its first code unit. *)
Lemma trimEnd_keeps_start (s : t) : startsClean s -> startsClean (trimEnd s).
Proof.
  intros H. destruct (trimEnd_split s) as [r [Hs _]].
  destruct (trimEnd s) as [|c s'] eqn:E; [exact I|].
  rewrite Hs in H. exact H.
Qed.

Lemma trim_split (s : t) :
  exists l r, s = l ++ trim s ++ r /\ allWhiteSpace l /\ allWhiteSpace r.
Proof.
  destruct (trimStart_split s) as [l [Hs Hl]].
  destruct (trimEnd_split (trimStart s)) as [r [Hm Hr]].
  exists l, r. unfold trim. rewrite <- Hm. auto.
Qed.

Lemma trim_clean (s : t) : startsClean (trim s) /\ endsClean (trim s).
Proof.
  unfold trim. split.
  - apply trimEnd_keeps_start, trimStart_clean.
  - apply trimEnd_clean.
Qed.

End Trim.

(** ** The page of the content script *)
Section PageFacts.
Import Content.

Lemma attached_nodes n p : attached n p = true <-> In n (nodes p).
Proof.
  unfold attached, nodes. rewrite existsb_exists, in_map_iff.
  split; intros [o [H1 H2]]; exists o.
  - apply Nat.eqb_eq in H2. auto.
  - rewrite H1, Nat.eqb_refl. auto.
Qed.

Lemma not_attached_nodes n p : attached n p = false <-> ~ In n (nodes p).
Proof.
  rewrite <- attached_nodes. destruct (attached n p); split; congruence.
Qed.

Lemma shrinks_refl p : shrinks p p.
Proof. repeat split; auto using incl_refl. Qed.

Lemma shrinks_trans p q r : shrinks p q -> shrinks q r -> shrinks p r.
Proof.
  intros (A1 & A2 & A3 & A4) (B1 & B2 & B3 & B4). repeat split.
  - congruence.
  - congruence.
  - eapply incl_tran; eauto.
  - lia.
Qed.

Lemma shrinks_wellFormed p q : shrinks p q -> wellFormed p -> wellFormed q.
Proof.
  intros (A1 & A2 & A3 & A4) (W1 & W2 & W3 & W4).
  unfold wellFormed. rewrite A1, A2. repeat split.
  - lia.
  - intros o Ho. assert (In (node o) (nodes p)) as Hn
      by (apply A3; unfold nodes; apply in_map; exact Ho).
    unfold nodes in Hn. apply in_map_iff in Hn.
    destruct Hn as [o' [E Ho']]. rewrite <- E. apply W2. exact Ho'.
  - apply W3. exact H.
  - apply not_attached_nodes. intros Hn. apply A3 in Hn.
    apply W3 in H. destruct H as [_ H]. apply not_attached_nodes in H. auto.
  - exact W4.
Qed.

Lemma shrinks_discarded n p q : shrinks p q -> discarded n p -> discarded n q.
Proof.
  intros (A1 & A2 & A3 & A4) (D1 & D2 & D3).
  unfold discarded. rewrite A1, A2. repeat split; auto.
  apply not_attached_nodes. intros Hn. apply A3 in Hn.
  apply not_attached_nodes in D2. auto.
Qed.

Lemma remove_shrinks k p : shrinks p (remove k p).
Proof.
  unfold shrinks, remove, nodes. simpl. repeat split.
  - intros x Hx. apply in_map_iff in Hx. destruct Hx as [o [E Ho]].
    apply filter_In in Ho. apply in_map_iff. exists o. tauto.
  - apply filter_length_le.
Qed.

Lemma removeKeydownListener_shrinks k p : shrinks p (removeKeydownListener k p).
Proof. unfold shrinks, nodes. simpl. repeat split; auto using incl_refl. Qed.

Lemma updateOverlay_nodes k f p :
  (forall o, node (f o) = node o) -> nodes (updateOverlay k f p) = nodes p.
Proof.
  intros Hf. unfold nodes, updateOverlay. simpl. rewrite map_map.
  apply map_ext. intros o. destruct (Nat.eqb (node o) k); auto.
Qed.

Lemma updateOverlay_shrinks k f p :
  (forall o, node (f o) = node o) -> shrinks p (updateOverlay k f p).
Proof.
  intros Hf. unfold shrinks. rewrite updateOverlay_nodes by exact Hf.
  repeat split; auto using incl_refl.
  unfold updateOverlay. simpl. rewrite length_map. lia.
Qed.

Lemma escHandler_shrinks h key p : shrinks p (escHandler h key p).
Proof.
  unfold escHandler. destruct (key =? "Escape").
  - eapply shrinks_trans; [apply remove_shrinks | apply removeKeydownListener_shrinks].
  - apply shrinks_refl.
Qed.

Lemma dispatchKeydown_shrinks key hs p : shrinks p (dispatchKeydown key hs p).
Proof.
  revert p. induction hs as [|h hs IH]; intros p; simpl.
  - apply shrinks_refl.
  - eapply shrinks_trans; [|apply IH].
    destruct (existsb (Nat.eqb h) (keydown p)).
    + apply escHandler_shrinks.
    + apply shrinks_refl.
Qed.

Lemma keydownEvent_shrinks key p : shrinks p (keydownEvent key p).
Proof. apply dispatchKeydown_shrinks. Qed.

Lemma overlayListener_shrinks o t p : shrinks p (overlayListener o t p).
Proof.
  unfold overlayListener. destruct (Target_eqb t OverlayItself).
  - apply remove_shrinks.
  - apply shrinks_refl.
Qed.

Lemma inject_shrinks p : shrinks p (inject p).
Proof. unfold shrinks, nodes. simpl. repeat split; auto using incl_refl. Qed.

Lemma input_shrinks n v p : shrinks p (input n v p).
Proof. apply updateOverlay_shrinks. reflexivity. Qed.

Lemma findOverlay_some n p o :
  findOverlay n p = Some o -> In o (body p) /\ node o = n.
Proof.
  unfold findOverlay. intros H. apply find_some in H.
  rewrite Nat.eqb_eq in H. exact H.
Qed.

End PageFacts.

(** ** Opening and saving *)
Section DialogFacts.
Import Content.

Lemma getElementById_dialog p :
  getElementById "bananadb-dialog" p =
  match body p with
  | o :: _ => Some (o, OverlayItself)
  | [] => None
  end.
Proof. unfold getElementById. simpl. destruct (body p); reflexivity. Qed.

Lemma getElementById_checkbox p :
  getElementById "bananadb-skip-ai-checkbox" p =
  match body p with
  | o :: _ => Some (o, Checkbox)
  | [] => None
  end.
Proof. unfold getElementById. simpl. destruct (body p); reflexivity. Qed.

(** The guard: with a dialog in the page the call changes nothing. *)
Lemma showPromptInputDialog_guard u v p :
  body p <> [] -> showPromptInputDialog u v p = p.
Proof.
  intros H. unfold showPromptInputDialog. rewrite getElementById_dialog.
  destruct (body p); [congruence | reflexivity].
Qed.

Lemma showPromptInputDialog_fresh u v p :
  body p = [] ->
  showPromptInputDialog u v p =
  {| listeners := listeners p;
     body := [{| node := created p; capturedImageUrl := u;
                 capturedPageUrl := v; value := []; checked := false |}];
     keydown := keydown p ++ [created p];
     outbox := outbox p;
     created := S (created p) |}.
Proof.
  intros H. unfold showPromptInputDialog. rewrite getElementById_dialog, H.
  reflexivity.
Qed.

Lemma showPromptInputDialog_body u v p :
  length (body (showPromptInputDialog u v p)) = Nat.max 1 (length (body p)).
Proof.
  destruct (body p) as [|o b] eqn:E.
  - rewrite showPromptInputDialog_fresh by exact E. reflexivity.
  - rewrite showPromptInputDialog_guard by congruence. rewrite E. simpl. lia.
Qed.

Lemma showPromptInputDialog_outbox u v p :
  outbox (showPromptInputDialog u v p) = outbox p.
Proof.
  destruct (body p) as [|o b] eqn:E.
  - rewrite showPromptInputDialog_fresh by exact E. reflexivity.
  - rewrite showPromptInputDialog_guard by congruence. reflexivity.
Qed.

Lemma showPromptInputDialog_wellFormed u v p :
  wellFormed p -> wellFormed (showPromptInputDialog u v p).
Proof.
  intros W. destruct (body p) as [|o b] eqn:E.
  2: { rewrite showPromptInputDialog_guard by congruence. exact W. }
  rewrite showPromptInputDialog_fresh by exact E.
  destruct W as (W1 & W2 & W3 & W4). unfold wellFormed. simpl. repeat split.
  - lia.
  - intros o [<- | []]. simpl. lia.
  - apply W3 in H. lia.
  - unfold attached. simpl. rewrite orb_false_r. apply Nat.eqb_neq.
    apply W3 in H. lia.
  - exact W4.
Qed.

Lemma showPromptInputDialog_discarded n u v p :
  discarded n p -> discarded n (showPromptInputDialog u v p).
Proof.
  intros D. destruct (body p) as [|o b] eqn:E.
  2: { rewrite showPromptInputDialog_guard by congruence. exact D. }
  rewrite showPromptInputDialog_fresh by exact E.
  destruct D as (D1 & D2 & D3). unfold discarded. simpl. repeat split.
  - lia.
  - unfold attached. simpl. rewrite orb_false_r. apply Nat.eqb_neq. lia.
  - exact D3.
Qed.

(** The page after the Save listener of an attached overlay ran. *)
Lemma saveListener_attached o p :
  In o (body p) ->
  exists box,
    hd_error (body p) = Some box
    /\ saveListener o p =
       remove (node o)
         (sendMessage (node o)
            {| saveAction := "saveImage";
               saveImageUrl := capturedImageUrl o;
               savePageUrl := capturedPageUrl o;
               promptText := JsString.trim (value o);
               skipAI := checked box |} p).
Proof.
  intros Ho. unfold saveListener. rewrite getElementById_checkbox.
  destruct (body p) as [|box b]; [contradiction|].
  exists box. split; reflexivity.
Qed.

Lemma wellFormed_single n o p :
  wellFormed p -> findOverlay n p = Some o -> body p = [o] /\ node o = n.
Proof.
  intros (W1 & _) H. apply findOverlay_some in H. destruct H as [Ho Hn].
  split; [|exact Hn].
  destruct (body p) as [|a [|b l]]; simpl in *; try lia.
  destruct Ho as [-> | []]. reflexivity.
Qed.

End DialogFacts.

(** ** Events preserve the shape of the page *)
Section StepFacts.
Import Content.

Lemma save_wellFormed o m p :
  wellFormed p -> body p = [o] ->
  wellFormed (remove (node o) (sendMessage (node o) m p)).
Proof.
  intros (W1 & W2 & W3 & W4) E.
  assert (attached (node o) p = true) as Ha
    by (unfold attached; rewrite E; simpl; rewrite Nat.eqb_refl; reflexivity).
  unfold wellFormed, attached. simpl. rewrite E. simpl.
  rewrite Nat.eqb_refl. simpl. rewrite map_app. simpl. repeat split.
  - lia.
  - intros x [].
  - apply in_app_or in H. destruct H as [H | [<- | []]].
    + apply W3. exact H.
    + apply W2. rewrite E. left. reflexivity.
  - apply NoDup_app; [exact W4 | repeat constructor; intros [] |].
    intros a Ha1 [<- | []]. apply W3 in Ha1. destruct Ha1 as [_ Ha1]. congruence.
Qed.

Lemma click_wellFormed n t p : wellFormed p -> wellFormed (click n t p).
Proof.
  intros W. unfold click. destruct (findOverlay n p) as [o|] eqn:F; [|exact W].
  destruct (wellFormed_single n o p W F) as [E Hn].
  eapply shrinks_wellFormed; [apply overlayListener_shrinks|].
  destruct t; try exact W.
  - eapply shrinks_wellFormed; [apply updateOverlay_shrinks; reflexivity | exact W].
  - eapply shrinks_wellFormed; [apply updateOverlay_shrinks; reflexivity | exact W].
  - eapply shrinks_wellFormed; [apply remove_shrinks | exact W].
  - destruct (saveListener_attached o p) as [box [_ ->]].
    + rewrite E. left. reflexivity.
    + apply save_wellFormed; assumption.
Qed.

Lemma sendMessage_discarded n k m p :
  discarded n p -> k <> n -> discarded n (sendMessage k m p).
Proof.
  intros (D1 & D2 & D3) Hk. unfold discarded, attached in *. simpl.
  rewrite map_app. simpl. repeat split; auto.
  intros H. apply in_app_or in H. destruct H as [H | [H | []]]; auto.
Qed.

Lemma click_discarded m n t p : discarded m p -> discarded m (click n t p).
Proof.
  intros D. unfold click. destruct (findOverlay n p) as [o|] eqn:F; [|exact D].
  apply findOverlay_some in F. destruct F as [Ho Hn].
  assert (n <> m) as Hnm.
  { intros ->. destruct D as (_ & D2 & _). apply not_attached_nodes in D2.
    apply D2. unfold nodes. rewrite <- Hn. apply in_map. exact Ho. }
  eapply shrinks_discarded; [apply overlayListener_shrinks|].
  destruct t; try exact D.
  - eapply shrinks_discarded; [apply updateOverlay_shrinks; reflexivity | exact D].
  - eapply shrinks_discarded; [apply updateOverlay_shrinks; reflexivity | exact D].
  - eapply shrinks_discarded; [apply remove_shrinks | exact D].
  - destruct (saveListener_attached o p Ho) as [box [_ ->]].
    eapply shrinks_discarded; [apply remove_shrinks|].
    apply sendMessage_discarded; [exact D | congruence].
Qed.

Lemma onMessage_wellFormed r p : wellFormed p -> wellFormed (onMessage r p).
Proof.
  intros W. unfold onMessage. destruct (action r =? "showPromptDialog"); auto.
  apply showPromptInputDialog_wellFormed. exact W.
Qed.

Lemma onMessage_discarded n r p : discarded n p -> discarded n (onMessage r p).
Proof.
  intros D. unfold onMessage. destruct (action r =? "showPromptDialog"); auto.
  apply showPromptInputDialog_discarded. exact D.
Qed.

Lemma onMessage_outbox r p : outbox (onMessage r p) = outbox p.
Proof.
  unfold onMessage. destruct (action r =? "showPromptDialog"); auto.
  apply showPromptInputDialog_outbox.
Qed.

Lemma step_wellFormed p e : wellFormed p -> wellFormed (step p e).
Proof.
  intros W. destruct e; simpl.
  - eapply shrinks_wellFormed; [apply inject_shrinks | exact W].
  - unfold receive. apply Nat.iter_invariant; [|exact W].
    intros x. apply onMessage_wellFormed.
  - apply click_wellFormed. exact W.
  - eapply shrinks_wellFormed; [apply input_shrinks | exact W].
  - eapply shrinks_wellFormed; [apply keydownEvent_shrinks | exact W].
Qed.

Lemma step_discarded n p e : discarded n p -> discarded n (step p e).
Proof.
  intros D. destruct e; simpl.
  - eapply shrinks_discarded; [apply inject_shrinks | exact D].
  - unfold receive. apply Nat.iter_invariant; [|exact D].
    intros x. apply onMessage_discarded.
  - apply click_discarded. exact D.
  - eapply shrinks_discarded; [apply input_shrinks | exact D].
  - eapply shrinks_discarded; [apply keydownEvent_shrinks | exact D].
Qed.

Lemma run_wellFormed events p : wellFormed p -> wellFormed (run events p).
Proof.
  revert p. induction events as [|e events IH]; intros p W; simpl; auto.
  apply IH, step_wellFormed, W.
Qed.

Lemma run_discarded n events p : discarded n p -> discarded n (run events p).
Proof.
  revert p. induction events as [|e events IH]; intros p D; simpl; auto.
  apply IH, step_discarded, D.
Qed.

Lemma initial_wellFormed : wellFormed initial.
Proof.
  unfold wellFormed. simpl. repeat split; try lia; try contradiction.
  constructor.
Qed.

Lemma reachable_wellFormed events : wellFormed (run events initial).
Proof. apply run_wellFormed, initial_wellFormed. Qed.

End StepFacts.

(** ** The outbox *)
Section OutboxFacts.
Import Content.

Lemma shrinks_outbox p q : shrinks p q -> outbox q = outbox p.
Proof. intros (_ & H & _). exact H. Qed.

(** Only the Save button sends. *)
Lemma click_shrinks n t p : t <> SaveBtn -> shrinks p (click n t p).
Proof.
  intros Ht. unfold click. destruct (findOverlay n p) as [o|]; [|apply shrinks_refl].
  eapply shrinks_trans; [|apply overlayListener_shrinks].
  destruct t; try apply shrinks_refl; try congruence.
  - apply updateOverlay_shrinks. reflexivity.
  - apply updateOverlay_shrinks. reflexivity.
  - apply remove_shrinks.
Qed.

(** The Save button of the attached dialog of a well-formed page. *)
Lemma click_save n o p :
  wellFormed p -> findOverlay n p = Some o ->
  click n SaveBtn p =
  remove n
    (sendMessage n
       {| saveAction := "saveImage";
          saveImageUrl := capturedImageUrl o;
          savePageUrl := capturedPageUrl o;
          promptText := JsString.trim (value o);
          skipAI := checked o |} p).
Proof.
  intros W F. destruct (wellFormed_single n o p W F) as [E Hn].
  unfold click. rewrite F. unfold overlayListener. simpl.
  destruct (saveListener_attached o p) as [box [Hb ->]].
  - rewrite E. left. reflexivity.
  - rewrite E in Hb. simpl in Hb. injection Hb as <-. rewrite Hn. reflexivity.
Qed.

Lemma click_outbox n t p : exists extra, outbox (click n t p) = outbox p ++ extra.
Proof.
  destruct t;
    try (exists []; rewrite app_nil_r; apply shrinks_outbox, click_shrinks; congruence).
  unfold click. destruct (findOverlay n p) as [o|] eqn:F.
  - apply findOverlay_some in F. destruct F as [Ho _].
    destruct (saveListener_attached o p Ho) as [box [_ E]].
    unfold overlayListener. simpl. rewrite E. simpl. eexists. reflexivity.
  - exists []. rewrite app_nil_r. reflexivity.
Qed.

Lemma receive_outbox r p : outbox (receive r p) = outbox p.
Proof.
  unfold receive. generalize (listeners p) as k. intros k.
  induction k as [|k IH]; simpl; [reflexivity|].
  rewrite onMessage_outbox. exact IH.
Qed.

Lemma step_outbox p e : exists extra, outbox (step p e) = outbox p ++ extra.
Proof.
  destruct e; unfold step; try apply click_outbox; exists []; rewrite app_nil_r.
  - reflexivity.
  - apply receive_outbox.
  - apply shrinks_outbox, input_shrinks.
  - apply shrinks_outbox, keydownEvent_shrinks.
Qed.

Lemma run_outbox events p : exists extra, outbox (run events p) = outbox p ++ extra.
Proof.
  revert p. induction events as [|e events IH]; intros p; simpl.
  - exists []. rewrite app_nil_r. reflexivity.
  - destruct (IH (step p e)) as [x Hx]. destruct (step_outbox p e) as [y Hy].
    exists (y ++ x). rewrite Hx, Hy, app_assoc. reflexivity.
Qed.

Lemma sentBy_none n p : ~ In n (map fst (outbox p)) -> sentBy n p = 0.
Proof.
  unfold sentBy. induction (outbox p) as [|[k m] l IH]; simpl; intros H; [reflexivity|].
  destruct (Nat.eqb_spec k n) as [->|Hk].
  - exfalso. apply H. left. reflexivity.
  - apply IH. intros Hin. apply H. right. exact Hin.
Qed.

Lemma sentBy_some n p : In n (map fst (outbox p)) -> 1 <= sentBy n p.
Proof.
  unfold sentBy. induction (outbox p) as [|[k m] l IH]; simpl; intros H; [contradiction|].
  destruct (Nat.eqb_spec k n) as [->|Hk]; simpl; [lia|].
  apply IH. destruct H as [H|H]; [congruence | exact H].
Qed.

Lemma sentBy_once n p : NoDup (map fst (outbox p)) -> sentBy n p <= 1.
Proof.
  unfold sentBy. induction (outbox p) as [|[k m] l IH]; simpl; intros H; [lia|].
  inversion H as [|x xs Hx Hxs]; subst.
  destruct (Nat.eqb_spec k n) as [->|Hk]; simpl; [|apply IH; exact Hxs].
  assert (length (filter (fun m => Nat.eqb (fst m) n) l) = 0) as ->; [|lia].
  clear IH H Hxs. induction l as [|[k' m'] l IHl]; simpl in *; [reflexivity|].
  destruct (Nat.eqb_spec k' n) as [->|Hk'].
  - exfalso. apply Hx. left. reflexivity.
  - apply IHl. intros Hin. apply Hx. right. exact Hin.
Qed.

(** A dialog that left the page without sending never sends later. *)
Lemma discarded_silent n events p : discarded n p -> sentBy n (run events p) = 0.
Proof.
  intros D. apply sentBy_none. apply (run_discarded n events p D).
Qed.

(** Leaving through [remove] alone discards the dialog. *)
Lemma shrinks_to_discarded n p q :
  wellFormed p -> attached n p = true -> shrinks p q -> attached n q = false ->
  discarded n q.
Proof.
  intros (W1 & W2 & W3 & W4) Ha (S1 & S2 & S3 & S4) Hq.
  unfold discarded. rewrite S1, S2. repeat split; auto.
  - apply attached_nodes in Ha. unfold nodes in Ha. apply in_map_iff in Ha.
    destruct Ha as [o [<- Ho]]. apply W2. exact Ho.
  - intros H. apply W3 in H. destruct H as [_ H]. congruence.
Qed.

End OutboxFacts.

(** ** The keydown listeners *)
Section KeydownFacts.
Import Content.

Lemma nodes_remove k p :
  nodes (remove k p) = filter (fun n => negb (Nat.eqb n k)) (nodes p).
Proof.
  unfold nodes, remove. simpl. induction (body p) as [|o b IH]; simpl; [reflexivity|].
  destruct (Nat.eqb (node o) k); simpl; rewrite IH; reflexivity.
Qed.

Lemma remove_detaches k p : attached k (remove k p) = false.
Proof.
  apply not_attached_nodes. rewrite nodes_remove. intros H.
  apply filter_In in H. destruct H as [_ H]. rewrite Nat.eqb_refl in H. discriminate.
Qed.

Lemma shrinks_keeps_detached n p q :
  shrinks p q -> attached n p = false -> attached n q = false.
Proof.
  intros (_ & _ & S3 & _) H. apply not_attached_nodes. intros Hn.
  apply S3 in Hn. apply not_attached_nodes in H. auto.
Qed.

Lemma escHandler_listened h key p : listened p -> listened (escHandler h key p).
Proof.
  intros L. unfold escHandler. destruct (key =? "Escape"); [|exact L].
  unfold listened. fold (nodes (removeKeydownListener h (remove h p))).
  change (nodes (removeKeydownListener h (remove h p))) with (nodes (remove h p)).
  rewrite nodes_remove. simpl. intros n Hn. apply filter_In in Hn.
  destruct Hn as [Hn Hh]. apply filter_In. split; [|exact Hh]. apply L. exact Hn.
Qed.

Lemma dispatchKeydown_listened key hs p :
  listened p -> listened (dispatchKeydown key hs p).
Proof.
  revert p. induction hs as [|h hs IH]; intros p L; simpl; [exact L|].
  apply IH. destruct (existsb (Nat.eqb h) (keydown p)); [|exact L].
  apply escHandler_listened. exact L.
Qed.

(** Escape detaches every overlay whose listener is in the snapshot and
    still registered. *)
Lemma dispatchKeydown_detaches hs p n :
  In n hs -> In n (keydown p) ->
  attached n (dispatchKeydown "Escape" hs p) = false.
Proof.
  revert p. induction hs as [|h hs IH]; intros p Hn Hk; [contradiction|].
  simpl. destruct (Nat.eq_dec h n) as [->|Hne].
  - assert (existsb (Nat.eqb n) (keydown p) = true) as ->.
    { apply existsb_exists. exists n. rewrite Nat.eqb_refl. auto. }
    eapply shrinks_keeps_detached; [apply dispatchKeydown_shrinks|].
    unfold escHandler. simpl.
    change (attached n (removeKeydownListener n (remove n p)))
      with (attached n (remove n p)).
    apply remove_detaches.
  - destruct Hn as [Hn|Hn]; [contradiction|].
    apply IH; [exact Hn|].
    destruct (existsb (Nat.eqb h) (keydown p)); [|exact Hk].
    unfold escHandler. simpl. apply filter_In. split; [exact Hk|].
    apply negb_true_iff, Nat.eqb_neq. auto.
Qed.

Lemma keydownEvent_detaches n p :
  listened p -> attached n (keydownEvent "Escape" p) = false.
Proof.
  intros L. destruct (attached n p) eqn:Ha.
  - apply attached_nodes in Ha. apply L in Ha.
    apply dispatchKeydown_detaches; exact Ha.
  - eapply shrinks_keeps_detached; [apply keydownEvent_shrinks | exact Ha].
Qed.

Lemma showPromptInputDialog_listened u v p :
  listened p -> listened (showPromptInputDialog u v p).
Proof.
  intros L. destruct (body p) as [|o b] eqn:E.
  - rewrite showPromptInputDialog_fresh by exact E. unfold listened. simpl.
    intros n [<- | []]. apply in_or_app. right. left. reflexivity.
  - rewrite showPromptInputDialog_guard by congruence. exact L.
Qed.

(** Steps that leave the keydown listeners alone and attach nothing. *)
Lemma shrinks_listened p q :
  shrinks p q -> keydown q = keydown p -> listened p -> listened q.
Proof.
  intros (_ & _ & S3 & _) K L. unfold listened. rewrite K.
  intros n Hn. apply L. apply S3. exact Hn.
Qed.

End KeydownFacts.

Section ListenedFacts.
Import Content.

Lemma click_keydown n t p : keydown (click n t p) = keydown p.
Proof.
  unfold click. destruct (findOverlay n p) as [o|]; [|reflexivity].
  unfold overlayListener, saveListener, cancelListener.
  destruct t; simpl; try reflexivity.
  destruct (getElementById "bananadb-skip-ai-checkbox" p) as [[box part]|]; reflexivity.
Qed.

Lemma click_nodes n t p : incl (nodes (click n t p)) (nodes p).
Proof.
  destruct (Target_eqb t SaveBtn) eqn:Ht.
  - destruct t; try discriminate.
    unfold click. destruct (findOverlay n p) as [o|] eqn:F; [|apply incl_refl].
    apply findOverlay_some in F. destruct F as [Ho _].
    destruct (saveListener_attached o p Ho) as [box [_ E]].
    unfold overlayListener. simpl. rewrite E, nodes_remove.
    intros x Hx. apply filter_In in Hx. apply Hx.
  - assert (t <> SaveBtn) as Hne by (intros ->; discriminate).
    destruct (click_shrinks n t p Hne) as (_ & _ & H & _). exact H.
Qed.

Lemma step_listened p e : listened p -> listened (step p e).
Proof.
  intros L. destruct e; unfold step.
  - exact L.
  - unfold receive. apply Nat.iter_invariant; [|exact L].
    intros x Hx. unfold onMessage. destruct (action request =? "showPromptDialog"); auto.
    apply showPromptInputDialog_listened. exact Hx.
  - unfold listened. rewrite click_keydown. intros x Hx.
    apply L. apply (click_nodes n target p). exact Hx.
  - eapply shrinks_listened; [apply input_shrinks | reflexivity | exact L].
  - apply dispatchKeydown_listened. exact L.
Qed.

Lemma reachable_listened events : listened (run events initial).
Proof.
  assert (forall p, listened p -> listened (run events p)) as H.
  { induction events as [|e events IH]; intros p L; simpl; auto.
    apply IH, step_listened, L. }
  apply H. intros x [].
Qed.

End ListenedFacts.

(** ** The dialog of the content script *)
Section Dialog.
Import Content.

(** C1 — at most one dialog per page.  A call of [showPromptInputDialog]
    made while the page holds an element with the id of the dialog returns
    the page as it is, and otherwise attaches one overlay; so a second call
    after a first one changes nothing; every page the extension can reach
    holds at most one dialog, and two calls in a row leave exactly one. *)
Theorem present_twice_single_dialog :
  (forall p u v,
      match getElementById "bananadb-dialog" p with
      | Some _ => showPromptInputDialog u v p = p
      | None => length (body (showPromptInputDialog u v p)) = S (length (body p))
      end)
  /\ (forall p u1 v1 u2 v2,
        showPromptInputDialog u2 v2 (showPromptInputDialog u1 v1 p)
        = showPromptInputDialog u1 v1 p)
  /\ (forall events, length (body (run events initial)) <= 1)
  /\ (forall events u1 v1 u2 v2,
        length (body (showPromptInputDialog u2 v2
                        (showPromptInputDialog u1 v1 (run events initial)))) = 1).
Proof.
  assert (forall p u1 v1 u2 v2,
             showPromptInputDialog u2 v2 (showPromptInputDialog u1 v1 p)
             = showPromptInputDialog u1 v1 p) as Idem.
  { intros p u1 v1 u2 v2. apply showPromptInputDialog_guard.
    destruct (body p) as [|o b] eqn:E.
    - rewrite showPromptInputDialog_fresh by exact E. simpl. congruence.
    - rewrite showPromptInputDialog_guard by congruence. congruence. }
  split; [|split; [exact Idem|split]].
  - intros p u v. unfold showPromptInputDialog.
    destruct (getElementById "bananadb-dialog" p); [reflexivity|].
    simpl. rewrite length_app. simpl. lia.
  - intros events. apply (reachable_wellFormed events).
  - intros events u1 v1 u2 v2. rewrite Idem, showPromptInputDialog_body.
    pose proof (reachable_wellFormed events) as (W1 & _). lia.
Qed.

Lemma rounds_of_cancel n :
  rounds (fun k => click k CancelBtn) n initial =
  {| listeners := 0; body := []; keydown := seq 0 n; outbox := []; created := n |}.
Proof.
  induction n as [|n IH]; [reflexivity|].
  rewrite seq_S. simpl rounds. rewrite IH.
  rewrite showPromptInputDialog_fresh by reflexivity.
  simpl. rewrite Nat.sub_0_r. unfold click, findOverlay. simpl.
  rewrite Nat.eqb_refl. unfold overlayListener, cancelListener, remove. simpl.
  rewrite Nat.eqb_refl. reflexivity.
Qed.

(** C2 — the listeners of a dismissed dialog.  Evaluating the script: a
    dialog left through Cancel, Save or a click on the overlay is removed
    from the page while its [escHandler] stays registered on the document;
    only the Escape path deregisters it.  No click ever changes the keydown
    listeners, and [n] rounds of opening and cancelling leave [n] of them. *)
Theorem keydown_listener_outlives_dialog :
  (forall u v,
      let opened := showPromptInputDialog u v initial in
      (body (click 0 CancelBtn opened) = [] /\ keydown (click 0 CancelBtn opened) = [0])
      /\ (body (click 0 SaveBtn opened) = [] /\ keydown (click 0 SaveBtn opened) = [0])
      /\ (body (click 0 OverlayItself opened) = []
          /\ keydown (click 0 OverlayItself opened) = [0])
      /\ (body (keydownEvent "Escape" opened) = []
          /\ keydown (keydownEvent "Escape" opened) = []))
  /\ (forall n t p, keydown (click n t p) = keydown p)
  /\ (forall n,
        body (rounds (fun k => click k CancelBtn) n initial) = []
        /\ keydown (rounds (fun k => click k CancelBtn) n initial) = seq 0 n).
Proof.
  split; [|split].
  - intros u v. repeat split; reflexivity.
  - apply click_keydown.
  - intros n. rewrite rounds_of_cancel. split; reflexivity.
Qed.

Lemma findOverlay_attached n o p : findOverlay n p = Some o -> attached n p = true.
Proof.
  intros F. apply findOverlay_some in F. destruct F as [Ho Hn].
  apply attached_nodes. unfold nodes. rewrite <- Hn. apply in_map. exact Ho.
Qed.

Lemma click_cancel n o p : findOverlay n p = Some o -> click n CancelBtn p = remove n p.
Proof.
  intros F. unfold click. rewrite F. apply findOverlay_some in F.
  destruct F as [_ <-]. reflexivity.
Qed.

Lemma click_overlay n o p :
  findOverlay n p = Some o -> click n OverlayItself p = remove n p.
Proof.
  intros F. unfold click. rewrite F. apply findOverlay_some in F.
  destruct F as [_ <-]. reflexivity.
Qed.

(** C3 — one save message on Save, none on the other exits.  For a dialog
    attached to a page the extension can reach: nothing was sent for it
    so far; the Save button appends exactly one message, with action
    [saveImage], and whatever happens afterwards the dialog has sent
    exactly one; Cancel, a click on the overlay and Escape leave the
    outbox as it is, and whatever happens afterwards the dialog has sent
    none. *)
Theorem save_sends_once_other_exits_nothing :
  forall events n o,
    let p := run events initial in
    findOverlay n p = Some o ->
    sentBy n p = 0
    /\ (exists m, outbox (click n SaveBtn p) = outbox p ++ [(n, m)]
                  /\ saveAction m = "saveImage")
    /\ (forall more, sentBy n (run more (click n SaveBtn p)) = 1)
    /\ (outbox (click n CancelBtn p) = outbox p
        /\ forall more, sentBy n (run more (click n CancelBtn p)) = 0)
    /\ (outbox (click n OverlayItself p) = outbox p
        /\ forall more, sentBy n (run more (click n OverlayItself p)) = 0)
    /\ (outbox (keydownEvent "Escape" p) = outbox p
        /\ forall more, sentBy n (run more (keydownEvent "Escape" p)) = 0).
Proof.
  intros events n o p F.
  pose proof (reachable_wellFormed events) as W. fold p in W.
  pose proof (findOverlay_attached n o p F) as Ha.
  assert (forall q, shrinks p q -> attached n q = false ->
                    outbox q = outbox p /\ forall more, sentBy n (run more q) = 0) as Quiet.
  { intros q Hs Hq. split; [apply shrinks_outbox; exact Hs|].
    intros more. apply discarded_silent.
    apply (shrinks_to_discarded n p q W Ha Hs Hq). }
  split; [|split; [|split; [|split; [|split]]]].
  - apply sentBy_none. intros H. destruct W as (_ & _ & W3 & _).
    apply W3 in H. destruct H as [_ H]. congruence.
  - rewrite (click_save n o p W F). simpl. eexists. split; reflexivity.
  - intros more. apply Nat.le_antisymm.
    + apply sentBy_once. apply run_wellFormed, click_wellFormed, W.
    + apply sentBy_some.
      destruct (run_outbox more (click n SaveBtn p)) as [extra ->].
      rewrite (click_save n o p W F). simpl. rewrite !map_app. simpl.
      apply in_or_app. left. apply in_or_app. right. left. reflexivity.
  - apply Quiet.
    + apply click_shrinks. discriminate.
    + rewrite (click_cancel n o p F). apply remove_detaches.
  - apply Quiet.
    + apply click_shrinks. discriminate.
    + rewrite (click_overlay n o p F). apply remove_detaches.
  - apply Quiet.
    + apply keydownEvent_shrinks.
    + apply keydownEvent_detaches. apply reachable_listened.
Qed.

Lemma input_single n o v p :
  body p = [o] -> node o = n -> body (input n v p) = [setValue v o].
Proof.
  intros E Hn. unfold input, updateOverlay. simpl. rewrite E. simpl.
  rewrite Hn, Nat.eqb_refl. reflexivity.
Qed.

(** C8 — the prompt of the save message.  For a dialog attached to a page
    the extension can reach, the Save button sends the call's image and
    page URLs, the textarea's content trimmed, and the state of the
    checkbox; so does it right after the user left [v] in the textarea.
    [trim] removes white space at both ends and nothing else.  A dialog
    saved as it opened sends the empty prompt with [skipAI] false. *)
Theorem save_message_carries_trimmed_prompt :
  forall events n o,
    let p := run events initial in
    findOverlay n p = Some o ->
    outbox (click n SaveBtn p) =
      outbox p ++ [(n, {| saveAction := "saveImage";
                          saveImageUrl := capturedImageUrl o;
                          savePageUrl := capturedPageUrl o;
                          promptText := JsString.trim (value o);
                          skipAI := checked o |})]
    /\ (forall v,
          outbox (click n SaveBtn (input n v p)) =
            outbox p ++ [(n, {| saveAction := "saveImage";
                                saveImageUrl := capturedImageUrl o;
                                savePageUrl := capturedPageUrl o;
                                promptText := JsString.trim v;
                                skipAI := checked o |})])
    /\ (forall s, exists l r,
          s = l ++ JsString.trim s ++ r /\ allWhiteSpace l /\ allWhiteSpace r)
    /\ (forall s, startsClean (JsString.trim s) /\ endsClean (JsString.trim s))
    /\ (forall u v,
          outbox (run [Inject;
                       Receive {| action := "showPromptDialog";
                                  imageUrl := u; pageUrl := v |};
                       Click 0 SaveBtn] initial) =
            [(0, {| saveAction := "saveImage"; saveImageUrl := u;
                    savePageUrl := v; promptText := []; skipAI := false |})]).
Proof.
  intros events n o p F.
  pose proof (reachable_wellFormed events) as W. fold p in W.
  split; [|split; [|split; [|split]]].
  - rewrite (click_save n o p W F). reflexivity.
  - intros v. destruct (wellFormed_single n o p W F) as [E Hn].
    assert (wellFormed (input n v p)) as W'
      by (eapply shrinks_wellFormed; [apply input_shrinks | exact W]).
    assert (findOverlay n (input n v p) = Some (setValue v o)) as F'.
    { unfold findOverlay. rewrite (input_single n o v p E Hn). simpl.
      rewrite Hn, Nat.eqb_refl. reflexivity. }
    rewrite (click_save n _ _ W' F'). reflexivity.
  - apply trim_split.
  - apply trim_clean.
  - intros u v. reflexivity.
Qed.

(** C10, as stated, fails: the Cancel button lies inside the dialog box,
    is not the overlay, and a click on it detaches the dialog. *)
Lemma cancel_click_dismisses :
  CancelBtn <> OverlayItself
  /\ attached 0 (showPromptInputDialog "" "" initial) = true
  /\ attached 0 (click 0 CancelBtn (showPromptInputDialog "" "" initial)) = false.
Proof. repeat split. discriminate. Qed.

(** C10 — clicks inside the dialog.  The click listener of the overlay
    does nothing unless the target of the click is the overlay itself;
    and a click on an element of the dialog other than the overlay, the
    Cancel button and the Save button leaves the same overlays attached,
    the same keydown listeners and the same outbox. *)
Theorem inner_click_keeps_dialog :
  forall n t p,
    t <> OverlayItself ->
    (forall o, overlayListener o t p = p)
    /\ (t <> CancelBtn -> t <> SaveBtn ->
        nodes (click n t p) = nodes p
        /\ keydown (click n t p) = keydown p
        /\ outbox (click n t p) = outbox p).
Proof.
  intros n t p Ht. split.
  - intros o. unfold overlayListener. destruct t; try reflexivity. congruence.
  - intros Hc Hs. split; [|split].
    + unfold click. destruct (findOverlay n p) as [o|]; [|reflexivity].
      unfold overlayListener.
      destruct t; try congruence; simpl; try reflexivity;
        apply updateOverlay_nodes; reflexivity.
    + apply click_keydown.
    + apply shrinks_outbox, click_shrinks. exact Hs.
Qed.

(** The dialog opened by one message, about to be saved. *)
Lemma save_sends_once_other_exits_nothing_witness :
  let request := {| action := "showPromptDialog";
                    imageUrl := "http://example.com/a.png";
                    pageUrl := "http://example.com/" |} in
  let p := run [Inject; Receive request] initial in
  findOverlay 0 p = hd_error (body p)
  /\ sentBy 0 p = 0
  /\ (forall more, sentBy 0 (run more (click 0 SaveBtn p)) = 1)
  /\ (forall more, sentBy 0 (run more (click 0 CancelBtn p)) = 0).
Proof.
  intros request p.
  destruct (save_sends_once_other_exits_nothing [Inject; Receive request] 0
              {| node := 0; capturedImageUrl := "http://example.com/a.png";
                 capturedPageUrl := "http://example.com/";
                 value := []; checked := false |} eq_refl)
    as (H0 & _ & H1 & (_ & H2) & _).
  split; [reflexivity|]. split; [exact H0|]. split; [exact H1 | exact H2].
Defined.

(** The user typed a prompt between blanks and ticked the box. *)
Lemma save_message_carries_trimmed_prompt_witness :
  let request := {| action := "showPromptDialog";
                    imageUrl := "http://example.com/a.png";
                    pageUrl := "http://example.com/" |} in
  let p := run [Inject; Receive request;
                Input 0 (JsString.ofAscii "  a cat  "); Click 0 Checkbox] initial in
  findOverlay 0 p = hd_error (body p)
  /\ outbox (click 0 SaveBtn p) =
     [(0, {| saveAction := "saveImage";
             saveImageUrl := "http://example.com/a.png";
             savePageUrl := "http://example.com/";
             promptText := JsString.ofAscii "a cat";
             skipAI := true |})].
Proof.
  intros request p. split; [reflexivity|].
  exact (proj1 (save_message_carries_trimmed_prompt
                  [Inject; Receive request;
                   Input 0 (JsString.ofAscii "  a cat  "); Click 0 Checkbox] 0
                  {| node := 0; capturedImageUrl := "http://example.com/a.png";
                     capturedPageUrl := "http://example.com/";
                     value := JsString.ofAscii "  a cat  "; checked := true |}
                  eq_refl)).
Defined.

(** A click in the textarea of an open dialog. *)
Lemma inner_click_keeps_dialog_witness :
  let p := showPromptInputDialog "http://example.com/a.png" "http://example.com/"
             initial in
  Textarea <> OverlayItself
  /\ Textarea <> CancelBtn
  /\ Textarea <> SaveBtn
  /\ nodes (click 0 Textarea p) = nodes p.
Proof.
  intros p.
  assert (Textarea <> OverlayItself) as H1 by discriminate.
  assert (Textarea <> CancelBtn) as H2 by discriminate.
  assert (Textarea <> SaveBtn) as H3 by discriminate.
  split; [exact H1|]. split; [exact H2|]. split; [exact H3|].
  exact (proj1 (proj2 (inner_click_keeps_dialog 0 Textarea p H1) H2 H3)).
Defined.

End Dialog.

(** ** The handlers of the background script *)
Section Coordinator.
Import Background.

Lemma prefix_append a b : prefix a (a ++ b)%string = true.
Proof.
  induction a as [|c a IH]; simpl.
  - destruct b; reflexivity.
  - destruct (ascii_dec c c); [exact IH | congruence].
Qed.

Lemma contains_includes needle text : contains needle text -> includes needle text = true.
Proof.
  assert (forall t, includes needle t =
                    if prefix needle t then true
                    else match t with
                         | EmptyString => false
                         | String _ rest => includes needle rest
                         end) as Unfold by (intros t; destruct t; reflexivity).
  intros [before [after ->]]. induction before as [|c before IH]; rewrite Unfold.
  - simpl. rewrite prefix_append. reflexivity.
  - simpl append.
    destruct (prefix needle (String c (before ++ needle ++ after))); [reflexivity | exact IH].
Qed.

(** C4 — a click without image URL.  When [info.srcUrl] is missing, the
    listener makes one call, the notification that the image URL cannot
    be obtained, and ends normally: no injection, no message to the tab,
    no HTTP request. *)
Theorem missing_image_url_only_notifies :
  forall info tab injected,
    menuItemId info = "saveToBananaDB" ->
    missing (srcUrl info) = true ->
    run (onClicked info tab injected)
    = (Normal tt, [NotificationsCreate "❌ 錯誤" "無法取得圖片 URL"])
    /\ existsb reachesOut (snd (run (onClicked info tab injected))) = false.
Proof.
  intros info tab injected Hid Hsrc.
  assert (run (onClicked info tab injected)
          = (Normal tt, [NotificationsCreate "❌ 錯誤" "無法取得圖片 URL"])) as E.
  { unfold run, onClicked. rewrite Hid. simpl. unfold tryCatch. rewrite Hsrc.
    reflexivity. }
  split; [exact E|]. rewrite E. reflexivity.
Qed.

(** Decimal digits read back give the integer. *)
Lemma digits_read_back (n : Z) :
  option_map Z.of_int (NilZero.int_of_string (NilZero.string_of_int (Z.to_int n)))
  = Some n.
Proof.
  rewrite NilZero.isi.
  - simpl. rewrite DecimalZ.of_to. reflexivity.
  - destruct n as [|p|p]; simpl; try discriminate.
    intros H. injection H as H. exact (DecimalPos.Unsigned.to_uint_nonnil p H).
  - destruct n as [|p|p]; simpl; try discriminate.
    intros H. injection H as H. exact (DecimalPos.Unsigned.to_uint_nonnil p H).
Qed.


(** C6 — a non-2xx response whose body is the JSON text [null].  Reading
    [errorData.detail] throws, and the notification carries the text of
    that TypeError, which holds neither the status nor the word HTTP. *)
Theorem null_error_body_hides_status :
  forall imageUrl pageUrl promptText skipAI,
    let outcome :=
      run (handleSaveImage imageUrl pageUrl promptText skipAI
             (Normal {| status := 500; json := Normal Null |})) in
    notifications (snd outcome)
    = [("❌ 儲存失敗", "Cannot read properties of null (reading 'detail')"%string)]
    /\ ~ contains "500" "Cannot read properties of null (reading 'detail')"
    /\ ~ contains "HTTP" "Cannot read properties of null (reading 'detail')".
Proof.
  intros. repeat split; intros H; apply contains_includes in H; discriminate H.
Qed.

(** What the script does deliver for a non-2xx response: a detail that is
    a non-empty string is the text of the notification, and a body that
    does not parse, or an object without detail, gives the status. *)
Lemma failure_notification_detail :
  forall imageUrl pageUrl promptText skipAI st props c d,
    ok {| status := st; json := Normal (Obj props) |} = false ->
    lookup "detail" props = Some (Str (String c d)) ->
    notifications
      (snd (run (handleSaveImage imageUrl pageUrl promptText skipAI
                   (Normal {| status := st; json := Normal (Obj props) |}))))
    = [("❌ 儲存失敗", String c d)].
Proof.
  intros imageUrl pageUrl promptText skipAI st props c d Hok Hd.
  evaluate. rewrite Hok. simpl.
  rewrite Hd. reflexivity.
Qed.

Lemma failure_notification_status :
  forall imageUrl pageUrl promptText skipAI st body,
    ok {| status := st; json := body |} = false ->
    (match body with
     | Throw _ => True
     | Normal (Obj props) => lookup "detail" props = None
     | Normal _ => False
     end) ->
    notifications
      (snd (run (handleSaveImage imageUrl pageUrl promptText skipAI
                   (Normal {| status := st; json := body |}))))
    = [("❌ 儲存失敗", ("HTTP " ++ statusText st)%string)].
Proof.
  intros imageUrl pageUrl promptText skipAI st body Hok Hb.
  evaluate. rewrite Hok. simpl.
  destruct body as [[] | e]; try contradiction; simpl.
  - rewrite Hb. reflexivity.
  - reflexivity.
Qed.

(** Chrome rejects a request that cannot reach the server with a TypeError
    whose message is [Failed to fetch]; that message is what the
    notification shows, not the hint to check the server. *)
Lemma network_error_message_is_shown :
  notifications
    (snd (run (handleSaveImage "http://example.com/a.png" "http://example.com/"
                 [] false (Throw {| message := "Failed to fetch" |}))))
  = [("❌ 儲存失敗", "Failed to fetch"%string)]
  /\ "Failed to fetch"%string
     <> "請確認 BananaDB 伺服器正在執行 (http://localhost:8000)"%string.
Proof. split; [reflexivity | discriminate]. Qed.

(** C7 — a request that fails on the network.  The handler ends normally
    after one notification, the failure one.  Its text is the message of
    the rejection; the hint to check that the server is running, which the
    script holds for the server that cannot be reached, is shown only when
    the message of the rejection is empty. *)
Theorem network_failure_notifies :
  forall imageUrl pageUrl promptText skipAI e,
    let outcome :=
      run (handleSaveImage imageUrl pageUrl promptText skipAI (Throw e)) in
    fst outcome = Normal tt
    /\ notifications (snd outcome)
       = [("❌ 儲存失敗",
           if (message e =? "")%string
           then "請確認 BananaDB 伺服器正在執行 (http://localhost:8000)"%string
           else message e)].
Proof. intros. split; reflexivity. Qed.

(** C9, as stated, fails: a 2xx response whose body parses to an object
    without [data] ends in the failure notification. *)
Lemma ok_response_without_data_fails :
  ok {| status := 200; json := Normal (Obj []) |} = true
  /\ notifications
       (snd (run (handleSaveImage "http://example.com/a.png" "http://example.com/"
                    [] false (Normal {| status := 200; json := Normal (Obj []) |}))))
     = [("❌ 儲存失敗",
         "Cannot read properties of undefined (reading 'image_id')"%string)].
Proof. split; reflexivity. Qed.

(** C9 — one notification for every save.  A [saveImage] message is
    handed to [handleSaveImage]; whatever [fetch] and [response.json()]
    settle to, the handler ends normally and raises exactly one
    notification: the success one when the response is 2xx and its body
    parses to an object whose [data] is neither undefined nor null and
    whose [data.image_id] JavaScript can print, the failure one in every
    other case. *)
Theorem every_save_notifies_once :
  forall imageUrl pageUrl promptText skipAI fetched,
    let outcome :=
      run (handleSaveImage imageUrl pageUrl promptText skipAI fetched) in
    run (onMessage {| Content.saveAction := "saveImage";
                      Content.saveImageUrl := imageUrl;
                      Content.savePageUrl := pageUrl;
                      Content.promptText := promptText;
                      Content.skipAI := skipAI |} fetched) = outcome
    /\ fst outcome = Normal tt
    /\ exists text,
        notifications (snd outcome)
        = [(if succeeds fetched then "✅ 儲存成功"%string else "❌ 儲存失敗"%string,
            text)].
Proof.
  intros imageUrl pageUrl promptText skipAI fetched.
  split; [reflexivity|].
  unfold succeeds, readsIdentifier, member. evaluate.
  destruct fetched as [[st body] | e]; simpl;
    [|split; [reflexivity | eexists; reflexivity]].
  destruct (ok {| status := st; json := body |}); simpl;
    split_cases; split; try reflexivity; eexists; reflexivity.
Qed.

(** A click on an image whose source URL the browser did not supply. *)
Lemma missing_image_url_only_notifies_witness :
  let info := {| menuItemId := "saveToBananaDB"; srcUrl := None |} in
  let tab := Some {| id := 7; url := Some "http://example.com/"%string |} in
  menuItemId info = "saveToBananaDB"%string
  /\ missing (srcUrl info) = true
  /\ run (onClicked info tab (Normal tt))
     = (Normal tt, [NotificationsCreate "❌ 錯誤" "無法取得圖片 URL"]).
Proof.
  intros info tab. split; [reflexivity|]. split; [reflexivity|].
  exact (proj1 (missing_image_url_only_notifies info tab (Normal tt) eq_refl eq_refl)).
Defined.


End Coordinator.

(** ** More on the click listener *)
Section ClickListener.
Import Background.

Lemma orString_empty a : orString a "" = a.
Proof.
  unfold orString. destruct (a =? "")%string eqn:E; [|reflexivity].
  apply String.eqb_eq in E. auto.
Qed.

Lemma missing_nonempty s : s <> ""%string -> missing (Some s) = false.
Proof. intros H. simpl. apply String.eqb_neq. exact H. Qed.

Lemma onClicked_in_tab :
  forall info tab injected s,
    menuItemId info = "saveToBananaDB"%string ->
    srcUrl info = Some s ->
    s <> ""%string ->
    run (onClicked info (Some tab) injected)
    = (Normal tt,
       [ConsoleLog "📤 準備儲存圖片:"; ExecuteScript (id tab) "content.js"]
       ++ match injected with
          | Normal _ => []
          | Throw _ =>
              [ConsoleLog "Content script already injected or injection failed:"]
          end
       ++ [TabsSendMessage (id tab)
             {| Content.action := "showPromptDialog";
                Content.imageUrl := s;
                Content.pageUrl := match url tab with
                                   | Some u => u
                                   | None => ""%string
                                   end |}]).
Proof.
  intros info tab injected s Hid Hsrc Hs.
  unfold run, onClicked. rewrite Hid, Hsrc. simpl String.eqb. cbv iota.
  rewrite (missing_nonempty s Hs).
  unfold tryCatch, bind, tabUrl, tabId, call, await, ret. simpl.
  assert (match url tab with Some u => orString u "" | None => ""%string end
          = match url tab with Some u => u | None => ""%string end) as ->
    by (destruct (url tab); [apply orString_empty | reflexivity]).
  destruct injected as [[] | e]; reflexivity.
Qed.

(** X1 — a click on an image in a tab.  With a source URL, the listener
    injects [content.js] into the tab and then sends the tab one
    [showPromptDialog] message with the image URL and the page URL (empty
    when the tab has none), whether the injection succeeded or was
    rejected; a rejection only adds a line to the console.  No notification
    is raised. *)
Theorem click_on_image_opens_dialog :
  forall info tab injected s,
    menuItemId info = "saveToBananaDB"%string ->
    srcUrl info = Some s ->
    s <> ""%string ->
    run (onClicked info (Some tab) injected)
    = (Normal tt,
       [ConsoleLog "📤 準備儲存圖片:"; ExecuteScript (id tab) "content.js"]
       ++ match injected with
          | Normal _ => []
          | Throw _ =>
              [ConsoleLog "Content script already injected or injection failed:"]
          end
       ++ [TabsSendMessage (id tab)
             {| Content.action := "showPromptDialog";
                Content.imageUrl := s;
                Content.pageUrl := match url tab with
                                   | Some u => u
                                   | None => ""%string
                                   end |}]).
Proof. exact onClicked_in_tab. Qed.

Lemma click_on_image_opens_dialog_witness :
  let info := {| menuItemId := "saveToBananaDB"; srcUrl := Some "http://example.com/a.png"%string |} in
  let tab := {| id := 7; url := None |} in
  tabMessages (snd (run (onClicked info (Some tab) (Throw {| message := "Cannot access a chrome:// URL" |}))))
  = [(7%Z, {| Content.action := "showPromptDialog";
              Content.imageUrl := "http://example.com/a.png";
              Content.pageUrl := "" |})].
Proof.
  intros info tab.
  rewrite (click_on_image_opens_dialog info tab
             (Throw {| message := "Cannot access a chrome:// URL" |})
             "http://example.com/a.png" eq_refl eq_refl
             ltac:(discriminate)).
  reflexivity.
Defined.

(** X2 — a click that did not take place in a tab.  With a source URL but
    no tab, reading [tab.url] throws; the outer handler logs the error and
    raises one error notification with the text of the exception.  Nothing
    is injected and no message is sent. *)
Theorem click_outside_tab_notifies :
  forall info injected s,
    menuItemId info = "saveToBananaDB"%string ->
    srcUrl info = Some s ->
    s <> ""%string ->
    run (onClicked info None injected)
    = (Normal tt,
       [ConsoleError "❌ 處理失敗:";
        NotificationsCreate "❌ 錯誤"
          "Cannot read properties of undefined (reading 'url')"]).
Proof.
  intros info injected s Hid Hsrc Hs.
  unfold run, onClicked. rewrite Hid, Hsrc. simpl String.eqb. cbv iota.
  rewrite (missing_nonempty s Hs). reflexivity.
Qed.

Lemma click_outside_tab_notifies_witness :
  let info := {| menuItemId := "saveToBananaDB"; srcUrl := Some "http://example.com/a.png"%string |} in
  existsb reachesOut (snd (run (onClicked info None (Normal tt)))) = false
  /\ notifications (snd (run (onClicked info None (Normal tt))))
     = [("❌ 錯誤"%string, "Cannot read properties of undefined (reading 'url')"%string)].
Proof.
  intros info.
  rewrite (click_outside_tab_notifies info (Normal tt) "http://example.com/a.png"
             eq_refl eq_refl ltac:(discriminate)).
  split; reflexivity.
Defined.

(** X3 — what the click listener does, case by case.  It always ends
    normally and never makes an HTTP request.  It reacts to the menu item
    the install listener creates and to no other: for another item nothing
    is called.  For that item it raises one notification when the source
    URL is missing or there is no tab, and none otherwise; and it injects
    once and sends one message exactly when both are there. *)
Theorem click_listener_cases :
  forall info tab injected,
    let outcome := run (onClicked info tab injected) in
    let ours := existsb (String.eqb (menuItemId info))
                  (Install.itemIds Install.onInstalled) in
    let ready := negb (missing (srcUrl info))
                 && match tab with Some _ => true | None => false end in
    fst outcome = Normal tt
    /\ fetches (snd outcome) = []
    /\ (if ours then True else snd outcome = [])
    /\ length (notifications (snd outcome)) = (if ours && negb ready then 1 else 0)
    /\ length (injections (snd outcome)) = (if ours && ready then 1 else 0)
    /\ length (tabMessages (snd outcome)) = (if ours && ready then 1 else 0).
Proof.
  intros info tab injected. simpl. rewrite orb_false_r.
  unfold run, onClicked.
  destruct (menuItemId info =? "saveToBananaDB")%string; simpl;
    [|repeat split; reflexivity].
  unfold tryCatch. destruct (srcUrl info) as [s|]; simpl;
    [|repeat split; reflexivity].
  destruct (s =? "")%string; simpl; [repeat split; reflexivity|].
  destruct tab as [t|]; simpl; [|repeat split; reflexivity].
  destruct injected as [[] | e]; repeat split; reflexivity.
Qed.

End ClickListener.

(** ** More on [handleSaveImage] *)
Section SaveHandler.
Import Background.

Lemma handleSaveImage_calls :
  forall imageUrl pageUrl promptText skipAI fetched,
    let log := snd (run (handleSaveImage imageUrl pageUrl promptText skipAI fetched)) in
    let request :=
      Fetch "http://localhost:8000/api/collect_url" "POST" "application/json"
        {| image_url := imageUrl; page_url := pageUrl;
           context_text := promptText; skip_ai := skipAI |} in
    (exists rest, log = ConsoleLog "💾 開始儲存:" :: request :: rest)
    /\ length (fetches log) = 1
    /\ hd_error (fetches log)
       = Some ("http://localhost:8000/api/collect_url"%string, "POST"%string,
               "application/json"%string,
               {| image_url := imageUrl; page_url := pageUrl;
                  context_text := promptText; skip_ai := skipAI |})
    /\ injections log = []
    /\ tabMessages log = [].
Proof.
  intros imageUrl pageUrl promptText skipAI fetched.
  destruct skipAI; evaluate.
  all: destruct fetched as [[st body] | e]; simpl;
    [|repeat split; eexists; reflexivity].
  all: destruct (ok {| status := st; json := body |}); simpl.
  all: split_cases; repeat split; eexists; reflexivity.
Qed.

(** X4 — one request per save.  Whatever [fetch] settles to, the handler
    makes exactly one HTTP request, a POST of JSON to
    [/api/collect_url] of the local server, before anything else but its
    first console line; the body carries the four arguments unchanged under
    the names [image_url], [page_url], [context_text] and [skip_ai].  It
    never injects a script or writes to a tab. *)
Theorem save_makes_one_request :
  forall imageUrl pageUrl promptText skipAI fetched,
    let log := snd (run (handleSaveImage imageUrl pageUrl promptText skipAI fetched)) in
    let request :=
      Fetch "http://localhost:8000/api/collect_url" "POST" "application/json"
        {| image_url := imageUrl; page_url := pageUrl;
           context_text := promptText; skip_ai := skipAI |} in
    (exists rest, log = ConsoleLog "💾 開始儲存:" :: request :: rest)
    /\ length (fetches log) = 1
    /\ hd_error (fetches log)
       = Some ("http://localhost:8000/api/collect_url"%string, "POST"%string,
               "application/json"%string,
               {| image_url := imageUrl; page_url := pageUrl;
                  context_text := promptText; skip_ai := skipAI |})
    /\ injections log = []
    /\ tabMessages log = [].
Proof. exact handleSaveImage_calls. Qed.


(** X5 — a success body without identifier.  When the response is 2xx and
    [data] is there but holds no [image_id] (an object without that key, or
    a number, string, boolean or array), the handler still raises the
    success notification, and the identifier reads [undefined]. *)
Theorem success_without_identifier :
  forall imageUrl pageUrl promptText skipAI st props data,
    ok {| status := st; json := Normal (Obj props) |} = true ->
    lookup "data" props = Some data ->
    data <> Undefined -> data <> Null ->
    member "image_id" data = Undefined ->
    notifications
      (snd (run (handleSaveImage imageUrl pageUrl promptText skipAI
                   (Normal {| status := st; json := Normal (Obj props) |}))))
    = [("✅ 儲存成功"%string, "圖片已新增至 BananaDB (ID: undefined)"%string)].
Proof.
  intros imageUrl pageUrl promptText skipAI st props data Hok Hd Hu Hn Hi.
  evaluate. rewrite Hok. simpl. rewrite Hd.
  destruct data; try congruence; simpl; try reflexivity.
  simpl in Hi. destruct (lookup "image_id" props0); [subst; reflexivity | reflexivity].
Qed.

Lemma success_without_identifier_witness :
  let data := Obj [("id"%string, Num (Integer {| asZ := 42; asZ_safe := eq_refl |}))] in
  notifications
    (snd (run (handleSaveImage "http://example.com/a.png" "http://example.com/" [] false
                 (Normal {| status := 201;
                            json := Normal (Obj [("data"%string, data)]) |}))))
  = [("✅ 儲存成功"%string, "圖片已新增至 BananaDB (ID: undefined)"%string)].
Proof.
  intros data.
  exact (success_without_identifier
           "http://example.com/a.png" "http://example.com/" [] false 201
           [("data"%string, data)] data
           eq_refl eq_refl ltac:(discriminate) ltac:(discriminate) eq_refl).
Defined.

(** X6 — a success status with a body that is not JSON.  When the response
    is 2xx and [response.json()] is rejected, the handler raises the
    failure notification, with the message of the rejection, or the hint
    about the server when that message is empty. *)
Theorem success_status_unreadable_body :
  forall imageUrl pageUrl promptText skipAI st e,
    ok {| status := st; json := Throw e |} = true ->
    notifications
      (snd (run (handleSaveImage imageUrl pageUrl promptText skipAI
                   (Normal {| status := st; json := Throw e |}))))
    = [("❌ 儲存失敗"%string,
        if (message e =? "")%string then serverHint else message e)].
Proof.
  intros imageUrl pageUrl promptText skipAI st e Hok.
  evaluate. rewrite Hok. reflexivity.
Qed.

Lemma success_status_unreadable_body_witness :
  notifications
    (snd (run (handleSaveImage "http://example.com/a.png" "http://example.com/" [] false
                 (Normal {| status := 204;
                            json := Throw {| message := "Unexpected end of JSON input" |} |}))))
  = [("❌ 儲存失敗"%string, "Unexpected end of JSON input"%string)].
Proof.
  exact (success_status_unreadable_body
           "http://example.com/a.png" "http://example.com/" [] false 204
           {| message := "Unexpected end of JSON input" |} eq_refl).
Defined.

Lemma newError_truthy v :
  truthy v = true ->
  newError v = match toString v with
               | Normal text => Normal {| message := text |}
               | Throw e => Throw e
               end.
Proof. destruct v; simpl; intros T; try discriminate; reflexivity. Qed.

(** X7 — the text of the failure for a non-2xx response.  When the body
    parses to anything but [null], the text is decided by its [detail].  A
    truthy detail is shown as JavaScript prints it, the hint about the
    server taking the place of an empty text; when it cannot be printed
    (an object with a member named [toString], alone or in an array) the
    text is that of the TypeError.  A detail that is absent or falsy (the
    empty string, 0, false, null) gives [HTTP] and the status in decimal
    digits.  A string is printed as it is, an object without [toString]
    member as [[object Object]]. *)
Theorem error_text_follows_detail :
  forall imageUrl pageUrl promptText skipAI st body,
    ok {| status := st; json := Normal body |} = false ->
    body <> Null -> body <> Undefined ->
    notifications
      (snd (run (handleSaveImage imageUrl pageUrl promptText skipAI
                   (Normal {| status := st; json := Normal body |}))))
    = [("❌ 儲存失敗"%string,
        if truthy (member "detail" body)
        then match toString (member "detail" body) with
             | Normal text => if (text =? "")%string then serverHint else text
             | Throw e => if (message e =? "")%string then serverHint else message e
             end
        else ("HTTP " ++ NilZero.string_of_int (Z.to_int st))%string)]
    /\ (forall s, toString (Str s) = Normal s)
    /\ (forall props,
          toString (Obj props)
          = match lookup "toString" props with
            | None => Normal "[object Object]"%string
            | Some _ => Throw {| message := "Cannot convert object to primitive value" |}
            end)
    /\ option_map Z.of_int
         (NilZero.int_of_string (NilZero.string_of_int (Z.to_int st))) = Some st.
Proof.
  intros imageUrl pageUrl promptText skipAI st body Hok Hn Hu.
  split; [|split; [reflexivity | split; [reflexivity | apply digits_read_back]]].
  evaluate. rewrite Hok. simpl. unfold member, statusText.
  destruct body; try congruence; simpl; try reflexivity.
  destruct (lookup "detail" props) as [detail|]; simpl; [|reflexivity].
  destruct (truthy detail) eqn:T; [|reflexivity].
  rewrite (newError_truthy detail T).
  destruct (toString detail); reflexivity.
Qed.

Lemma error_text_follows_detail_witness :
  let validation :=
    Obj [("detail"%string,
          Arr [Obj [("loc"%string, Arr [Str "body"; Str "image_url"]);
                    ("msg"%string, Str "field required")]])] in
  let shadowed := Obj [("detail"%string, Obj [("toString"%string, Bool true)])] in
  let handle st body :=
    notifications
      (snd (run (handleSaveImage "http://example.com/a.png" "http://example.com/" [] false
                   (Normal {| status := st; json := Normal body |})))) in
  handle 422%Z validation = [("❌ 儲存失敗"%string, "[object Object]"%string)]
  /\ handle 400%Z (Obj [("detail"%string, Str "bad url")])
     = [("❌ 儲存失敗"%string, "bad url"%string)]
  /\ handle 503%Z (Obj []) = [("❌ 儲存失敗"%string, "HTTP 503"%string)]
  /\ handle 500%Z shadowed
     = [("❌ 儲存失敗"%string, "Cannot convert object to primitive value"%string)].
Proof.
  intros validation shadowed handle.
  split; [|split; [|split]].
  - exact (proj1 (error_text_follows_detail
                    "http://example.com/a.png" "http://example.com/" [] false 422
                    validation eq_refl ltac:(discriminate) ltac:(discriminate))).
  - exact (proj1 (error_text_follows_detail
                    "http://example.com/a.png" "http://example.com/" [] false 400
                    (Obj [("detail"%string, Str "bad url")])
                    eq_refl ltac:(discriminate) ltac:(discriminate))).
  - exact (proj1 (error_text_follows_detail
                    "http://example.com/a.png" "http://example.com/" [] false 503
                    (Obj []) eq_refl ltac:(discriminate) ltac:(discriminate))).
  - exact (proj1 (error_text_follows_detail
                    "http://example.com/a.png" "http://example.com/" [] false 500
                    shadowed eq_refl ltac:(discriminate) ltac:(discriminate))).
Defined.

End SaveHandler.

(** ** More on the page of the content script *)
Section PageEvents.
Import Content.

Lemma onMessage_idempotent r p : onMessage r (onMessage r p) = onMessage r p.
Proof.
  unfold onMessage. destruct (action r =? "showPromptDialog")%string; [|reflexivity].
  apply showPromptInputDialog_guard.
  destruct (body p) as [|o b] eqn:E.
  - rewrite showPromptInputDialog_fresh by exact E. simpl. congruence.
  - rewrite showPromptInputDialog_guard by congruence. congruence.
Qed.

Lemma receive_cases :
  forall request p,
    receive request p =
    match listeners p with
    | 0 => p
    | S _ => onMessage request p
    end.
Proof.
  intros request p. unfold receive. destruct (listeners p) as [|k]; [reflexivity|].
  induction k as [|k IH]; [reflexivity|].
  change (Nat.iter (S (S k)) (onMessage request) p)
    with (onMessage request (Nat.iter (S k) (onMessage request) p)).
  rewrite IH. apply onMessage_idempotent.
Qed.

(** X8 — a message and the number of injections.  However many times the
    script was run in the page, a message has the effect of one run of the
    listener: the listeners after the first find the dialog of the first.
    A page the script never ran in drops the message. *)
Theorem message_handled_once :
  forall request p,
    receive request p =
    match listeners p with
    | 0 => p
    | S _ => onMessage request p
    end.
Proof. exact receive_cases. Qed.

Lemma dispatchKeydown_keydown_incl key hs p :
  incl (keydown (dispatchKeydown key hs p)) (keydown p).
Proof.
  revert p. induction hs as [|h hs IH]; intros p; simpl; [apply incl_refl|].
  eapply incl_tran; [apply IH|].
  destruct (existsb (Nat.eqb h) (keydown p)); [|apply incl_refl].
  unfold escHandler. destruct (key =? "Escape")%string; [|apply incl_refl].
  simpl. intros x Hx. apply filter_In in Hx. apply Hx.
Qed.

Lemma dispatchKeydown_deregisters hs p h :
  In h hs -> ~ In h (keydown (dispatchKeydown "Escape" hs p)).
Proof.
  revert p. induction hs as [|a hs IH]; intros p Hh; [contradiction|].
  simpl. destruct (Nat.eq_dec a h) as [->|Hne].
  - intros Hin. apply dispatchKeydown_keydown_incl in Hin.
    destruct (existsb (Nat.eqb h) (keydown p)) eqn:E.
    + unfold escHandler in Hin. simpl in Hin. apply filter_In in Hin.
      destruct Hin as [_ Hin]. rewrite Nat.eqb_refl in Hin. discriminate.
    + assert (existsb (Nat.eqb h) (keydown p) = true); [|congruence].
      apply existsb_exists. exists h. rewrite Nat.eqb_refl. auto.
  - destruct Hh as [Hh|Hh]; [contradiction|]. apply IH. exact Hh.
Qed.

(** X9 — Escape closes everything.  In every page the extension can
    reach, a press of Escape leaves no dialog attached and no keydown
    listener registered, those left behind by dialogs dismissed otherwise
    included, and sends nothing. *)
Theorem escape_clears_page :
  forall events,
    let p := run events initial in
    body (keydownEvent "Escape" p) = []
    /\ keydown (keydownEvent "Escape" p) = []
    /\ outbox (keydownEvent "Escape" p) = outbox p.
Proof.
  intros events p. split; [|split].
  - destruct (body (keydownEvent "Escape" p)) as [|o b] eqn:E; [reflexivity|].
    pose proof (keydownEvent_detaches (node o) p (reachable_listened events)) as H.
    unfold attached in H. rewrite E in H. simpl in H.
    rewrite Nat.eqb_refl in H. discriminate.
  - destruct (keydown (keydownEvent "Escape" p)) as [|h l] eqn:E; [reflexivity|].
    exfalso. apply (dispatchKeydown_deregisters (keydown p) p h).
    + apply (dispatchKeydown_keydown_incl "Escape" (keydown p) p).
      unfold keydownEvent in E. rewrite E. left. reflexivity.
    + unfold keydownEvent in E. rewrite E. left. reflexivity.
  - apply shrinks_outbox, keydownEvent_shrinks.
Qed.

Lemma keydownEvent_other_key :
  forall key p, key <> "Escape"%string -> keydownEvent key p = p.
Proof.
  intros key p Hk. unfold keydownEvent. generalize (keydown p) as hs.
  intros hs. apply String.eqb_neq in Hk.
  induction hs as [|h hs IH]; simpl; [reflexivity|].
  unfold escHandler. rewrite Hk.
  destruct (existsb (Nat.eqb h) (keydown p)); exact IH.
Qed.

(** X10 — keys other than Escape.  A keydown whose [key] is not exactly
    [Escape] leaves the page as it is. *)
Theorem other_keys_change_nothing :
  forall key p, key <> "Escape"%string -> keydownEvent key p = p.
Proof. exact keydownEvent_other_key. Qed.

Lemma other_keys_change_nothing_witness :
  let p := showPromptInputDialog "http://example.com/a.png" "http://example.com/"
             initial in
  keydownEvent "Enter" p = p /\ keydownEvent "escape" p = p.
Proof.
  intros p. split.
  - exact (other_keys_change_nothing "Enter" p ltac:(discriminate)).
  - exact (other_keys_change_nothing "escape" p ltac:(discriminate)).
Defined.

End PageEvents.

(** ** While the dialog is open *)
Section OpenDialog.
Import Content.

Lemma findOverlay_updateOverlay n k f p :
  (forall o, node (f o) = node o) ->
  findOverlay n (updateOverlay k f p)
  = option_map (fun o => if Nat.eqb (node o) k then f o else o) (findOverlay n p).
Proof.
  intros Hf. unfold findOverlay, updateOverlay. simpl.
  induction (body p) as [|o b IH]; simpl; [reflexivity|].
  assert (node (if Nat.eqb (node o) k then f o else o) = node o) as ->
    by (destruct (Nat.eqb (node o) k); auto).
  destruct (Nat.eqb (node o) n); [reflexivity | exact IH].
Qed.

Lemma updateOverlay_keeps n k f o p :
  (forall x, sameCapture x (f x)) ->
  findOverlay n p = Some o ->
  exists o', findOverlay n (updateOverlay k f p) = Some o' /\ sameCapture o o'.
Proof.
  intros Hf F. rewrite findOverlay_updateOverlay by (intros x; apply Hf).
  rewrite F. simpl. eexists. split; [reflexivity|].
  destruct (Nat.eqb (node o) k); [apply Hf | repeat split].
Qed.

Lemma step_keeps_dialog n o p e :
  findOverlay n p = Some o -> keepsDialog e = true ->
  exists o', findOverlay n (step p e) = Some o'
             /\ sameCapture o o' /\ outbox (step p e) = outbox p.
Proof.
  intros F K.
  assert (forall x, sameCapture x (toggle x)) as Ht by (intros x; repeat split).
  assert (forall v x, sameCapture x (setValue v x)) as Hv by (intros v x; repeat split).
  destruct e; unfold step.
  - exists o. repeat split. exact F.
  - assert (receive request p = p) as ->.
    { rewrite receive_cases. destruct (listeners p); [reflexivity|].
      unfold onMessage. destruct (action request =? "showPromptDialog")%string;
        [|reflexivity].
      apply showPromptInputDialog_guard. apply findOverlay_some in F.
      destruct F as [Ho _]. intros E. rewrite E in Ho. contradiction. }
    exists o. repeat split. exact F.
  - assert (target <> SaveBtn) as Hs by (intros ->; discriminate).
    pose proof (shrinks_outbox _ _ (click_shrinks n0 target p Hs)) as Ho.
    unfold click in *. destruct (findOverlay n0 p) as [ok|];
      [|exists o; repeat split; assumption].
    unfold overlayListener in *.
    destruct target; try discriminate; simpl in *;
      try (exists o; repeat split; assumption).
    + destruct (updateOverlay_keeps n n0 toggle o p Ht F) as [o' [F' S']].
      exists o'. repeat split; try apply S'; assumption.
    + destruct (updateOverlay_keeps n n0 toggle o p Ht F) as [o' [F' S']].
      exists o'. repeat split; try apply S'; assumption.
  - destruct (updateOverlay_keeps n n0 (setValue v) o p (Hv v) F) as [o' [F' S']].
    exists o'. repeat split; try apply S'; assumption.
  - simpl in K. apply negb_true_iff, String.eqb_neq in K.
    rewrite (keydownEvent_other_key key p K). exists o. repeat split. exact F.
Qed.

Lemma run_keeps_dialog events n o p :
  findOverlay n p = Some o -> forallb keepsDialog events = true ->
  exists o', findOverlay n (run events p) = Some o'
             /\ sameCapture o o' /\ outbox (run events p) = outbox p.
Proof.
  revert o p. induction events as [|e events IH]; intros o p F K; simpl.
  - exists o. repeat split. exact F.
  - simpl in K. apply andb_true_iff in K. destruct K as [Ke Kr].
    destruct (step_keeps_dialog n o p e F Ke) as [o1 [F1 [(A1 & A2 & A3) O1]]].
    destruct (IH o1 (step p e) F1 Kr) as [o2 [F2 [(B1 & B2 & B3) O2]]].
    exists o2. repeat split; congruence.
Qed.

(** X11 — what is saved is what was captured.  Once a dialog is open in a
    page the extension can reach, injections, further messages (also for
    another image), edits, clicks inside the box, on the checkbox or its
    label, and keys other than Escape neither close it nor send anything;
    and the Save button then sends the image and page URLs of the message
    that opened the dialog. *)
Theorem save_sends_captured_urls :
  forall before n o events,
    let p := run before initial in
    findOverlay n p = Some o ->
    forallb keepsDialog events = true ->
    exists o',
      findOverlay n (run events p) = Some o'
      /\ outbox (run events p) = outbox p
      /\ outbox (click n SaveBtn (run events p))
         = outbox p ++ [(n, {| saveAction := "saveImage";
                               saveImageUrl := capturedImageUrl o;
                               savePageUrl := capturedPageUrl o;
                               promptText := JsString.trim (value o');
                               skipAI := checked o' |})].
Proof.
  intros before n o events p F K.
  destruct (run_keeps_dialog events n o p F K) as [o' [F' [(S1 & S2 & S3) O']]].
  exists o'. split; [exact F'|]. split; [exact O'|].
  assert (wellFormed (run events p)) as W
    by (apply run_wellFormed, reachable_wellFormed).
  rewrite (click_save n o' _ W F'). simpl. rewrite O', S2, S3. reflexivity.
Qed.

Lemma save_sends_captured_urls_witness :
  let first := {| action := "showPromptDialog";
                  imageUrl := "http://example.com/a.png";
                  pageUrl := "http://example.com/" |} in
  let second := {| action := "showPromptDialog";
                   imageUrl := "http://example.com/b.png";
                   pageUrl := "http://example.com/other" |} in
  let events := [Inject; Receive second; Input 0 (JsString.ofAscii "a cat");
                 KeyDown "Enter"; Click 0 Checkbox; Click 0 Box] in
  forallb keepsDialog events = true
  /\ exists o',
      outbox (click 0 SaveBtn (run events (run [Inject; Receive first] initial)))
      = [(0, {| saveAction := "saveImage";
                saveImageUrl := "http://example.com/a.png";
                savePageUrl := "http://example.com/";
                promptText := JsString.trim (value o');
                skipAI := checked o' |})].
Proof.
  intros first second events. split; [reflexivity|].
  destruct (save_sends_captured_urls [Inject; Receive first] 0
              {| node := 0; capturedImageUrl := "http://example.com/a.png";
                 capturedPageUrl := "http://example.com/";
                 value := []; checked := false |} events eq_refl eq_refl)
    as [o' [_ [_ H]]].
  exists o'. exact H.
Defined.

End OpenDialog.

(** ** The prompt at its edges, and the whole flow *)
Section Flow.

Lemma trimStart_blank s : allWhiteSpace s -> JsString.trimStart s = [].
Proof.
  unfold allWhiteSpace. induction s as [|c s IH]; simpl; [reflexivity|].
  intros H. apply andb_true_iff in H. destruct H as [Hc Hs].
  rewrite Hc. apply IH. exact Hs.
Qed.

Lemma trimStart_clean_id s : startsClean s -> JsString.trimStart s = s.
Proof.
  destruct s as [|c s]; simpl; [reflexivity|]. intros H. rewrite H. reflexivity.
Qed.

Lemma trim_blank s : allWhiteSpace s -> JsString.trim s = [].
Proof.
  intros H. unfold JsString.trim. rewrite (trimStart_blank s H). reflexivity.
Qed.

Lemma trim_clean_id s : startsClean s -> endsClean s -> JsString.trim s = s.
Proof.
  intros Hs He. unfold JsString.trim, JsString.trimEnd.
  rewrite (trimStart_clean_id s Hs), (trimStart_clean_id (rev s) He).
  apply rev_involutive.
Qed.

Lemma click_save_after_input n o v p :
  wellFormed p -> Content.findOverlay n p = Some o ->
  Content.outbox (Content.click n Content.SaveBtn (Content.input n v p))
  = Content.outbox p
    ++ [(n, {| Content.saveAction := "saveImage";
               Content.saveImageUrl := Content.capturedImageUrl o;
               Content.savePageUrl := Content.capturedPageUrl o;
               Content.promptText := JsString.trim v;
               Content.skipAI := Content.checked o |})].
Proof.
  intros W F. destruct (wellFormed_single n o p W F) as [E Hn].
  assert (wellFormed (Content.input n v p)) as W'
    by (eapply shrinks_wellFormed; [apply input_shrinks | exact W]).
  assert (Content.findOverlay n (Content.input n v p)
          = Some (Content.setValue v o)) as F'.
  { unfold Content.findOverlay. rewrite (input_single n o v p E Hn). simpl.
    rewrite Hn, Nat.eqb_refl. reflexivity. }
  rewrite (click_save n _ _ W' F'). reflexivity.
Qed.

(** X12 — the prompt at its edges.  In a page the extension can reach, a
    dialog saved with a textarea that holds nothing but white space sends
    the empty prompt; one saved with a text that neither begins nor ends
    with white space sends that text unchanged, inner white space
    included. *)
Theorem prompt_edges :
  forall events n o v,
    let p := Content.run events Content.initial in
    Content.findOverlay n p = Some o ->
    (allWhiteSpace v \/ (startsClean v /\ endsClean v)) ->
    Content.outbox (Content.click n Content.SaveBtn (Content.input n v p))
    = Content.outbox p
      ++ [(n, {| Content.saveAction := "saveImage";
                 Content.saveImageUrl := Content.capturedImageUrl o;
                 Content.savePageUrl := Content.capturedPageUrl o;
                 Content.promptText :=
                   if forallb JsString.isWhiteSpace v then [] else v;
                 Content.skipAI := Content.checked o |})].
Proof.
  intros events n o v p F Hv.
  rewrite (click_save_after_input n o v p (reachable_wellFormed events) F).
  destruct Hv as [Hb | [Hs He]].
  - rewrite (trim_blank v Hb). unfold allWhiteSpace in Hb. rewrite Hb. reflexivity.
  - rewrite (trim_clean_id v Hs He).
    destruct (forallb JsString.isWhiteSpace v) eqn:E; [|reflexivity].
    assert (v = []) as ->; [|reflexivity].
    rewrite <- (trim_clean_id v Hs He). apply trim_blank. exact E.
Qed.

Lemma prompt_edges_witness :
  let request := {| Content.action := "showPromptDialog";
                    Content.imageUrl := "http://example.com/a.png";
                    Content.pageUrl := "http://example.com/" |} in
  let p := Content.run [Content.Inject; Content.Receive request] Content.initial in
  map (fun m => Content.promptText (snd m))
    (Content.outbox (Content.click 0 Content.SaveBtn
                       (Content.input 0 [32; 9; 10; 12288]%N p)))
  = [[]]
  /\ map (fun m => Content.promptText (snd m))
       (Content.outbox (Content.click 0 Content.SaveBtn
                          (Content.input 0 (JsString.ofAscii "a  cat") p)))
     = [JsString.ofAscii "a  cat"].
Proof.
  intros request p. subst p.
  pose (o := {| Content.node := 0;
                Content.capturedImageUrl := "http://example.com/a.png"%string;
                Content.capturedPageUrl := "http://example.com/"%string;
                Content.value := []; Content.checked := false |}).
  split.
  - rewrite (prompt_edges [Content.Inject; Content.Receive request] 0 o
               [32; 9; 10; 12288]%N eq_refl (or_introl eq_refl)).
    reflexivity.
  - rewrite (prompt_edges [Content.Inject; Content.Receive request] 0 o
               (JsString.ofAscii "a  cat") eq_refl
               (or_intror (conj eq_refl eq_refl))).
    reflexivity.
Defined.

(** X13 — from the click to the request.  A click on an image with source
    URL [s] in a tab makes the background script send the tab one message;
    once the content script has run there, that message opens the dialog;
    when the user leaves [v] in the textarea and presses Save, the content
    script sends one message back; and for that message the background
    script posts [s], the URL of the tab (empty when it has none), [v]
    trimmed and [skip_ai] false to the server. *)
Theorem capture_flow :
  forall s u tabId injected v fetched,
    s <> ""%string ->
    let info := {| Background.menuItemId := "saveToBananaDB";
                   Background.srcUrl := Some s |} in
    let tab := {| Background.id := tabId; Background.url := u |} in
    exists request m,
      tabMessages (snd (Background.run (Background.onClicked info (Some tab) injected)))
      = [(tabId, request)]
      /\ Content.outbox
           (Content.run [Content.Inject; Content.Receive request;
                         Content.Input 0 v; Content.Click 0 Content.SaveBtn]
              Content.initial)
         = [(0, m)]
      /\ fetches (snd (Background.run (Background.onMessage m fetched)))
         = [("http://localhost:8000/api/collect_url"%string, "POST"%string,
             "application/json"%string,
             {| Background.image_url := s;
                Background.page_url := match u with Some x => x | None => ""%string end;
                Background.context_text := JsString.trim v;
                Background.skip_ai := false |})].
Proof.
  intros s u tabId injected v fetched Hs info tab.
  rewrite (onClicked_in_tab info tab injected s eq_refl eq_refl Hs).
  eexists. eexists. split; [|split].
  - destruct injected; reflexivity.
  - reflexivity.
  - simpl Background.onMessage.
    pose proof (handleSaveImage_calls s
                  (match u with Some x => x | None => ""%string end)
                  (JsString.trim v) false fetched) as (_ & Hl & Hh & _).
    cbv zeta in Hl, Hh.
    destruct (fetches _) as [|x [|y l]]; simpl in *; try discriminate.
    injection Hh as <-. reflexivity.
Qed.

Lemma capture_flow_witness :
  exists request m,
    tabMessages
      (snd (Background.run
              (Background.onClicked
                 {| Background.menuItemId := "saveToBananaDB";
                    Background.srcUrl := Some "http://example.com/a.png"%string |}
                 (Some {| Background.id := 7; Background.url := None |})
                 (Background.Normal tt))))
    = [(7%Z, request)]
    /\ Content.outbox
         (Content.run [Content.Inject; Content.Receive request;
                       Content.Input 0 (JsString.ofAscii " a cat ");
                       Content.Click 0 Content.SaveBtn]
            Content.initial)
       = [(0, m)]
    /\ fetches
         (snd (Background.run
                 (Background.onMessage m
                    (Background.Throw {| Background.message := "Failed to fetch" |}))))
       = [("http://localhost:8000/api/collect_url"%string, "POST"%string,
           "application/json"%string,
           {| Background.image_url := "http://example.com/a.png";
              Background.page_url := "";
              Background.context_text := JsString.ofAscii "a cat";
              Background.skip_ai := false |})].
Proof.
  exact (capture_flow "http://example.com/a.png" None 7 (Background.Normal tt)
           (JsString.ofAscii " a cat ")
           (Background.Throw {| Background.message := "Failed to fetch" |})
           ltac:(discriminate)).
Defined.

End Flow.

(** ** Invariants of the page and the ways out of the dialog *)
Section Exits.
Import Content.

Lemma click_created n t p : created (click n t p) = created p.
Proof.
  unfold click. destruct (findOverlay n p) as [o|]; [|reflexivity].
  unfold overlayListener, saveListener, cancelListener.
  destruct t; simpl; try reflexivity.
  destruct (getElementById "bananadb-skip-ai-checkbox" p) as [[box part]|]; reflexivity.
Qed.

Lemma escHandler_tidy h key p : keydownTidy p -> keydownTidy (escHandler h key p).
Proof.
  intros [N B]. unfold escHandler. destruct (key =? "Escape")%string; [|split; assumption].
  unfold keydownTidy. simpl. split.
  - apply NoDup_filter. exact N.
  - intros x Hx. apply filter_In in Hx. apply B, Hx.
Qed.

Lemma dispatchKeydown_tidy key hs p : keydownTidy p -> keydownTidy (dispatchKeydown key hs p).
Proof.
  revert p. induction hs as [|h hs IH]; intros p T; simpl; [exact T|].
  apply IH. destruct (existsb (Nat.eqb h) (keydown p)); [|exact T].
  apply escHandler_tidy. exact T.
Qed.

Lemma showPromptInputDialog_tidy u v p :
  keydownTidy p -> keydownTidy (showPromptInputDialog u v p).
Proof.
  intros [N B]. destruct (body p) as [|o b] eqn:E.
  2: { rewrite showPromptInputDialog_guard by congruence. split; assumption. }
  rewrite showPromptInputDialog_fresh by exact E. unfold keydownTidy. simpl. split.
  - apply NoDup_app; [exact N | repeat constructor; intros [] |].
    intros a Ha [<- | []]. apply B in Ha. lia.
  - intros h Hh. apply in_app_or in Hh. destruct Hh as [Hh | [<- | []]].
    + apply B in Hh. lia.
    + lia.
Qed.

Lemma step_tidy p e : keydownTidy p -> keydownTidy (step p e).
Proof.
  intros T. destruct e; unfold step.
  - exact T.
  - unfold receive. apply Nat.iter_invariant; [|exact T].
    intros x Hx. unfold onMessage.
    destruct (action request =? "showPromptDialog")%string; auto.
    apply showPromptInputDialog_tidy. exact Hx.
  - unfold keydownTidy. rewrite click_keydown, click_created. exact T.
  - exact T.
  - apply dispatchKeydown_tidy. exact T.
Qed.

Lemma reachable_tidy events : keydownTidy (run events initial).
Proof.
  assert (forall p, keydownTidy p -> keydownTidy (run events p)) as H.
  { induction events as [|e events IH]; intros p T; simpl; auto.
    apply IH, step_tidy, T. }
  apply H. split; [constructor | intros h []].
Qed.

(** X14 — the keydown listeners of a page.  In every page the extension
    can reach, no [escHandler] is registered twice, every attached dialog
    has its own registered, and there are at most as many of them as
    dialogs were opened. *)
Theorem keydown_listeners_bounded :
  forall events,
    let p := run events initial in
    NoDup (keydown p)
    /\ incl (nodes p) (keydown p)
    /\ length (keydown p) <= created p.
Proof.
  intros events p. destruct (reachable_tidy events) as [N B]. fold p in N, B.
  split; [exact N|]. split; [apply (reachable_listened events)|].
  rewrite <- (length_seq (created p) 0). apply NoDup_incl_length; [exact N|].
  intros h Hh. apply in_seq. apply B in Hh. lia.
Qed.

Lemma exit_closes n o p q :
  body p = [o] -> node o = n -> body q = body (remove n p) -> body q = [].
Proof.
  intros E Hn ->. unfold remove. simpl. rewrite E. simpl.
  rewrite Hn, Nat.eqb_refl. reflexivity.
Qed.

(** X15 — every way out closes the dialog.  For a dialog attached to a
    page the extension can reach, the Cancel button, the Save button, a
    click on the overlay and Escape each leave the page without dialog,
    and the next request opens a dialog again. *)
Theorem every_exit_closes_dialog :
  forall events n o,
    let p := run events initial in
    findOverlay n p = Some o ->
    (body (click n CancelBtn p) = []
     /\ body (click n SaveBtn p) = []
     /\ body (click n OverlayItself p) = []
     /\ body (keydownEvent "Escape" p) = [])
    /\ forall u v q,
         In q [click n CancelBtn p; click n SaveBtn p;
               click n OverlayItself p; keydownEvent "Escape" p] ->
         length (body (showPromptInputDialog u v q)) = 1.
Proof.
  intros events n o p F.
  pose proof (reachable_wellFormed events) as W. fold p in W.
  destruct (wellFormed_single n o p W F) as [E Hn].
  assert (body (click n CancelBtn p) = []
          /\ body (click n SaveBtn p) = []
          /\ body (click n OverlayItself p) = []
          /\ body (keydownEvent "Escape" p) = []) as (H1 & H2 & H3 & H4).
  { repeat split.
    - rewrite (click_cancel n o p F). apply (exit_closes n o p _ E Hn). reflexivity.
    - rewrite (click_save n o p W F). apply (exit_closes n o p _ E Hn). reflexivity.
    - rewrite (click_overlay n o p F). apply (exit_closes n o p _ E Hn). reflexivity.
    - destruct (body (keydownEvent "Escape" p)) as [|x b] eqn:Eb; [reflexivity|].
      pose proof (keydownEvent_detaches (node x) p (reachable_listened events)) as H.
      unfold attached in H. rewrite Eb in H. simpl in H.
      rewrite Nat.eqb_refl in H. discriminate. }
  split; [repeat split; assumption|].
  intros u v q Hq. rewrite showPromptInputDialog_body.
  simpl in Hq. destruct Hq as [<- | [<- | [<- | [<- | []]]]].
  - rewrite H1. reflexivity.
  - rewrite H2. reflexivity.
  - rewrite H3. reflexivity.
  - rewrite H4. reflexivity.
Qed.

Lemma every_exit_closes_dialog_witness :
  let request := {| action := "showPromptDialog";
                    imageUrl := "http://example.com/a.png";
                    pageUrl := "http://example.com/" |} in
  let p := run [Inject; Receive request] initial in
  body (click 0 CancelBtn p) = []
  /\ body (click 0 SaveBtn p) = []
  /\ body (click 0 OverlayItself p) = []
  /\ body (keydownEvent "Escape" p) = [].
Proof.
  intros request p.
  exact (proj1 (every_exit_closes_dialog [Inject; Receive request] 0
                  {| node := 0; capturedImageUrl := "http://example.com/a.png";
                     capturedPageUrl := "http://example.com/";
                     value := []; checked := false |} eq_refl)).
Defined.

End Exits.

(** ** From the outbox of the page to the server *)
Section Relay.

Lemma click_asksSave n t p : asksSave p -> asksSave (Content.click n t p).
Proof.
  intros A. destruct (Content.Target_eqb t Content.SaveBtn) eqn:Ht.
  - destruct t; try discriminate. unfold Content.click.
    destruct (Content.findOverlay n p) as [o|] eqn:F; [|exact A].
    apply findOverlay_some in F. destruct F as [Ho _].
    destruct (saveListener_attached o p Ho) as [box [_ E]].
    unfold Content.overlayListener. simpl. rewrite E. unfold asksSave. simpl.
    intros m Hm. apply in_app_or in Hm. destruct Hm as [Hm | [<- | []]].
    + apply A. exact Hm.
    + reflexivity.
  - assert (t <> Content.SaveBtn) as Hne by (intros ->; discriminate).
    unfold asksSave. rewrite (shrinks_outbox _ _ (click_shrinks n t p Hne)). exact A.
Qed.

Lemma step_asksSave p e : asksSave p -> asksSave (Content.step p e).
Proof.
  intros A. destruct e; unfold Content.step.
  - exact A.
  - unfold asksSave. rewrite receive_outbox. exact A.
  - apply click_asksSave. exact A.
  - exact A.
  - unfold asksSave. rewrite (shrinks_outbox _ _ (keydownEvent_shrinks key p)). exact A.
Qed.

Lemma reachable_asksSave events : asksSave (Content.run events Content.initial).
Proof.
  assert (forall p, asksSave p -> asksSave (Content.run events p)) as H.
  { induction events as [|e events IH]; intros p A; simpl; auto.
    apply IH, step_asksSave, A. }
  apply H. intros m [].
Qed.

Lemma handleSaveImage_notifies_once imageUrl pageUrl promptText skipAI fetched :
  length (Background.notifications
            (snd (Background.run
                    (Background.handleSaveImage imageUrl pageUrl promptText skipAI
                       fetched)))) = 1.
Proof.
  evaluate. destruct fetched as [[st body] | e]; simpl; [|reflexivity].
  destruct (Background.ok {| Background.status := st; Background.json := body |});
    simpl; split_cases; reflexivity.
Qed.

(** X16 — no message is lost on the way.  Every message a reachable page
    has sent carries the action [saveImage]; handed to the listener of the
    background script, it leads to exactly one HTTP request and exactly one
    notification, whatever [fetch] settles to. *)
Theorem sent_message_is_served :
  forall events m fetched,
    In m (Content.outbox (Content.run events Content.initial)) ->
    let log := snd (Background.run (Background.onMessage (snd m) fetched)) in
    Content.saveAction (snd m) = "saveImage"%string
    /\ length (fetches log) = 1
    /\ length (Background.notifications log) = 1.
Proof.
  intros events m fetched Hm. pose proof (reachable_asksSave events m Hm) as Ha.
  split; [exact Ha|]. unfold Background.onMessage. rewrite Ha. simpl.
  split.
  - apply handleSaveImage_calls.
  - apply handleSaveImage_notifies_once.
Qed.

Lemma sent_message_is_served_witness :
  let request := {| Content.action := "showPromptDialog";
                    Content.imageUrl := "http://example.com/a.png";
                    Content.pageUrl := "http://example.com/" |} in
  let m := (0, {| Content.saveAction := "saveImage";
                  Content.saveImageUrl := "http://example.com/a.png";
                  Content.savePageUrl := "http://example.com/";
                  Content.promptText := [];
                  Content.skipAI := false |}) in
  let log := snd (Background.run
                    (Background.onMessage (snd m)
                       (Background.Throw {| Background.message := "Failed to fetch" |}))) in
  In m (Content.outbox
          (Content.run [Content.Inject; Content.Receive request;
                        Content.Click 0 Content.SaveBtn] Content.initial))
  /\ length (fetches log) = 1
  /\ length (Background.notifications log) = 1.
Proof.
  intros request m log.
  assert (In m (Content.outbox
                  (Content.run [Content.Inject; Content.Receive request;
                                Content.Click 0 Content.SaveBtn] Content.initial)))
    as Hm by (left; reflexivity).
  split; [exact Hm|].
  exact (proj2 (sent_message_is_served
                  [Content.Inject; Content.Receive request;
                   Content.Click 0 Content.SaveBtn] m
                  (Background.Throw {| Background.message := "Failed to fetch" |}) Hm)).
Defined.

End Relay.
